(** * JamesTrade: the profile store and the trading core, embedded in Rocq

    The development follows the two source files of the repository:

    - [db_json.py]      (module [Store]): profile normalisation
      ([_ensure_user_defaults]) and the trade ledger
      ([append_trade], [get_trades_for_user]);
    - [trading_core.py] (module [Core]): the OHLCV normaliser
      ([normalize_ohlcv_to_df]), the RSI fallback ([rsi_series]), the
      built-in exchange client ([_private_request], [get_balance_usdt]),
      the alternate-environment probe ([try_alternate_env_and_fix_user])
      and the per-cycle pass over all users ([run_once]).

    Python values decoded from JSON are modelled by the inductive type
    [pyval]; a [dict] is an association list in insertion order (the order
    of [items()] and [values()]); floats are the kernel's binary64
    floats.  Text is modelled by [string]; the character tests below are
    the ASCII ones.  Code that raises returns [None], or a [Raise] with
    the state reached; what the Python runtime, pandas, the network and
    the clock do is a parameter ([Runtime], [environment]).  Module
    [Scenario] holds the files and exchanges of the closed examples; the
    properties follow, one module of facts per part of the source. *)

From Stdlib Require Import ZArith List String Ascii Bool Lia.
From Stdlib Require Import Permutation Sorted.
From Stdlib Require Import Floats DecimalString.
Import ListNotations.

Open Scope Z_scope.
Open Scope string_scope.

(* ================================================================== *)
(** * Python values *)
(* ================================================================== *)

Module Py.

#[local] Unset Elimination Schemes.
Inductive pyval : Type :=
| PNone
| PBool (b : bool)
| PInt (z : Z)
| PFloat (f : float)
| PStr (s : string)
| PList (l : list pyval)
| PDict (d : list (string * pyval)).
#[local] Set Elimination Schemes.

Definition dict : Type := list (string * pyval).

(** [bool(v)]: Python truthiness. *)
Definition truthy (v : pyval) : bool :=
  match v with
  | PNone => false
  | PBool b => b
  | PInt z => negb (Z.eqb z 0)
  | PFloat f => negb (PrimFloat.eqb f 0%float)
  | PStr s => negb (String.eqb s "")
  | PList l => match l with [] => false | _ => true end
  | PDict d => match d with [] => false | _ => true end
  end.

(** [a or b]. *)
Definition py_or (a b : pyval) : pyval := if truthy a then a else b.

Definition is_dict (v : pyval) : bool :=
  match v with PDict _ => true | _ => false end.

Definition is_list (v : pyval) : bool :=
  match v with PList _ => true | _ => false end.

(** ** Dictionaries *)

(** [k in d] and [d.get(k)]. *)
Fixpoint lookup (k : string) (d : dict) : option pyval :=
  match d with
  | [] => None
  | (k', v) :: rest => if String.eqb k k' then Some v else lookup k rest
  end.

Definition mem (k : string) (d : dict) : bool :=
  match lookup k d with Some _ => true | None => false end.

(** [d.get(k, dflt)]. *)
Definition get (k : string) (dflt : pyval) (d : dict) : pyval :=
  match lookup k d with Some v => v | None => dflt end.

(** [d.get(k)], with [None] as the default. *)
Definition get_none (k : string) (d : dict) : pyval := get k PNone d.

(** [d[k] = v]: an existing key keeps its position, a new key goes last. *)
Fixpoint set (k : string) (v : pyval) (d : dict) : dict :=
  match d with
  | [] => [(k, v)]
  | (k', v') :: rest =>
      if String.eqb k k' then (k', v) :: rest else (k', v') :: set k v rest
  end.

(** [d.setdefault(k, v)], as a statement: the dictionary afterwards. *)
Definition setdefault (k : string) (v : pyval) (d : dict) : dict :=
  if mem k d then d else set k v d.

Definition keys (d : dict) : list string := map fst d.
Definition values (d : dict) : list pyval := map snd d.

(** The last [n] entries of a list. *)
Definition lastn {A : Type} (n : nat) (l : list A) : list A :=
  skipn (List.length l - n) l.

(** ** Strings *)

Definition str_of_Z (z : Z) : string := NilZero.string_of_int (Z.to_int z).

Definition is_digit (c : ascii) : bool :=
  let n := nat_of_ascii c in (48 <=? n)%nat && (n <=? 57)%nat.

Definition digit_val (c : ascii) : Z := Z.of_nat (nat_of_ascii c) - 48.

(** [s.isdigit()]: non-empty and digits only. *)
Fixpoint all_digits (s : string) : bool :=
  match s with
  | EmptyString => true
  | String c rest => is_digit c && all_digits rest
  end.

Definition isdigit (s : string) : bool :=
  match s with EmptyString => false | _ => all_digits s end.

Definition is_space (c : ascii) : bool :=
  let n := nat_of_ascii c in
  ((9 <=? n) && (n <=? 13) || (28 <=? n) && (n <=? 32))%nat.

Fixpoint lstrip (s : string) : string :=
  match s with
  | String c rest => if is_space c then lstrip rest else s
  | EmptyString => EmptyString
  end.

(** [rstrip] keeps a character when it is not a space or when something
    is kept after it. *)
Fixpoint rstrip (s : string) : string :=
  match s with
  | EmptyString => EmptyString
  | String c rest =>
      match rstrip rest with
      | EmptyString => if is_space c then EmptyString else String c EmptyString
      | r => String c r
      end
  end.

Definition strip (s : string) : string := rstrip (lstrip s).

(** The digits of an [int(...)] literal: groups of digits, single
    underscores allowed between two digits only. *)
Fixpoint parse_digits (acc : Z) (after_digit : bool) (s : string) : option Z :=
  match s with
  | EmptyString => if after_digit then Some acc else None
  | String c rest =>
      if is_digit c then parse_digits (10 * acc + digit_val c) true rest
      else if Ascii.eqb c "_" then
             if after_digit then parse_digits acc false rest else None
      else None
  end.

(** [int(s)] for a string: [None] stands for [ValueError]. *)
Definition int_of_str (s : string) : option Z :=
  match strip s with
  | String "+" rest => parse_digits 0 false rest
  | String "-" rest => option_map Z.opp (parse_digits 0 false rest)
  | t => parse_digits 0 false t
  end.

Definition lower_ascii (c : ascii) : ascii :=
  let n := nat_of_ascii c in
  if ((65 <=? n) && (n <=? 90))%nat then ascii_of_nat (n + 32) else c.

(** [s.lower()]. *)
Fixpoint lower (s : string) : string :=
  match s with
  | EmptyString => EmptyString
  | String c rest => String (lower_ascii c) (lower rest)
  end.

(** [sub in s]. *)
Fixpoint contains (sub s : string) : bool :=
  String.prefix sub s ||
  match s with
  | EmptyString => false
  | String _ rest => contains sub rest
  end.

(** ** The parts of the runtime and of pandas that are taken as given

    These functions belong to the Python runtime or to pandas, not to the
    repository: the text of a float or of a container, the conversion of
    text to a float, ISO date parsing, and the two pandas converters the
    normaliser calls. *)

(** [float(z)] for an int below [2^63] in magnitude: the nearest
    binary64 value. *)
Definition float_of_small (z : Z) : float :=
  if Z.leb 0 z then PrimFloat.of_uint63 (Uint63.of_Z z)
  else (- PrimFloat.of_uint63 (Uint63.of_Z (- z)))%float.

Inductive pydatetime : Type :=
| Naive (us : Z)             (**r microseconds, no time zone *)
| Aware (us : Z) (off : Z).  (**r with a UTC offset *)

Class Runtime : Type := {
  (** [str(f)] for a float *)
  float_repr : float -> string;
  (** [str(v)] for a list or a dict *)
  container_repr : pyval -> string;
  (** [float(z)] for an int of magnitude [2^63] or more; [None] is
      [OverflowError] *)
  float_of_int : Z -> option float;
  (** [float(s)] for a string; [None] is [ValueError] *)
  float_of_str : string -> option float;
  (** [datetime.fromisoformat(s)]; [None] is [ValueError] *)
  fromisoformat : string -> option pydatetime;
  (** [pd.to_datetime(x, utc=True)] in nanoseconds since the epoch;
      [None] when it raises or yields [NaT] *)
  to_datetime : pyval -> option Z;
  (** [pd.to_datetime(z, unit="ms", utc=True)] for an int, in
      nanoseconds since the epoch; [None] when it raises *)
  to_datetime_ms : Z -> option Z;
  (** [column_cell col x]: the cell [x] as [Series.apply] hands it to
      its function, in a column of [pd.DataFrame(rows)] that was built
      from the cells [col].  pandas infers one type for the column from
      all of its cells and converts each cell to it: an int in a column
      that also holds [None] or a float becomes a float, [None]
      becoming [nan]; in a column of mixed kinds the cells stay as
      they are. *)
  column_cell : list pyval -> pyval -> pyval;
  (** [pd.to_numeric(x, errors="coerce")] on one cell; [nan] when the
      cell does not parse *)
  to_numeric : pyval -> float
}.

Section WithRuntime.
Context {RT : Runtime}.

(** [str(v)]. *)
Definition py_str (v : pyval) : string :=
  match v with
  | PNone => "None"
  | PBool true => "True"
  | PBool false => "False"
  | PInt z => str_of_Z z
  | PFloat f => float_repr f
  | PStr s => s
  | PList _ | PDict _ => container_repr v
  end.

(** [float(v)]; [None] stands for [TypeError], [ValueError] or
    [OverflowError]. *)
Definition py_float (v : pyval) : option float :=
  match v with
  | PBool true => Some 1%float
  | PBool false => Some 0%float
  | PInt z =>
      if Z.ltb (Z.abs z) 9223372036854775808 then Some (float_of_small z)
      else float_of_int z
  | PFloat f => Some f
  | PStr s => float_of_str s
  | PNone | PList _ | PDict _ => None
  end.

End WithRuntime.

(** [pd.to_datetime(f, utc=True)] for a float that holds a whole
    number: the count of nanoseconds; [nan] gives [NaT]. *)
Definition ns_of_float (f : float) : option Z :=
  match Prim2SF f with
  | S754_zero _ => Some 0
  | S754_finite sg m e =>
      let v := if Z.leb 0 e then Z.pos m * 2 ^ e
               else Z.pos m / 2 ^ (- e) in
      if Z.leb 0 e || Z.eqb (Z.pos m mod 2 ^ (- e)) 0 then
        if Z.ltb v 9223372036854775808
        then Some (if sg then - v else v) else None
      else None
  | _ => None
  end.

(** [pd.to_datetime(x, unit="ms", utc=True)] for a non-negative int
    [x], where a nanosecond timestamp holds the instant. *)
Definition ms_to_ns (x : Z) : option Z :=
  if Z.leb (x * 1000000) 9223372036854775807
  then Some (x * 1000000) else None.

(** Whether pandas stores a column of these cells as floats: the cells
    are ints, floats and [None], with a number among them, and not
    ints only. *)
Definition float_column (col : list pyval) : bool :=
  forallb (fun v => match v with
                    | PNone | PFloat _ => true
                    | PInt z => Z.ltb (Z.abs z) 9223372036854775808
                    | _ => false
                    end) col
  && existsb (fun v => match v with
                       | PInt _ | PFloat _ => true
                       | _ => false
                       end) col
  && existsb (fun v => match v with
                       | PNone | PFloat _ => true
                       | _ => false
                       end) col.

Definition plain_column_cell (col : list pyval) (x : pyval) : pyval :=
  if float_column col then
    match x with
    | PNone => PFloat nan
    | PInt z => PFloat (float_of_small z)
    | _ => x
    end
  else x.

(** A runtime for closed examples.  It answers as Python and pandas do
    on the values the examples hold: [None], booleans, integers below
    [2^63], floats that hold a whole number, text made of digits, and
    text that is neither a number nor a date.  The text of floats and
    of containers, and dates written out, are outside what it knows:
    no example has them. *)
Definition plain_runtime : Runtime := {|
  float_repr := fun _ => "nan";
  container_repr := fun _ => "[]";
  float_of_int := fun _ => None;
  float_of_str := fun s =>
    if isdigit s then option_map float_of_small (int_of_str s) else None;
  fromisoformat := fun _ => None;
  to_datetime := fun v =>
    match v with
    | PInt z => Some z
    | PFloat f => ns_of_float f
    | _ => None
    end;
  to_datetime_ms := ms_to_ns;
  column_cell := plain_column_cell;
  to_numeric := fun v =>
    match v with
    | PBool true => 1%float
    | PBool false => 0%float
    | PInt z => float_of_small z
    | PFloat f => f
    | PStr s =>
        if isdigit s
        then match int_of_str s with
             | Some z => float_of_small z
             | None => nan
             end
        else nan
    | _ => nan
    end
|}.

End Py.

(* ================================================================== *)
(** * db_json.py: the profile store and the trade ledger *)
(* ================================================================== *)

Module Store.
Import Py.

(** ** Files *)

(** A backing file: absent, unreadable as JSON, or holding a value. *)
Inductive file : Type :=
| FMissing
| FCorrupt
| FJson (v : pyval).

Record disk : Type := {
  users_file : file;
  trades_file : file
}.

(** [_ensure_files]: creates [users.json] as an empty object and
    [trades.json] as an empty array when they do not exist. *)
Definition _ensure_files (d : disk) : disk :=
  {| users_file := match users_file d with
                   | FMissing => FJson (PDict [])
                   | f => f
                   end;
     trades_file := match trades_file d with
                    | FMissing => FJson (PList [])
                    | f => f
                    end |}.

(** [_read(TRADES_FILE, default)]: the value read and the disk
    afterwards; a missing file is created, a corrupt one gives the
    default. *)
Definition _read_trades (d : disk) (default : pyval) : pyval * disk :=
  match trades_file d with
  | FMissing => (default, _ensure_files d)
  | FCorrupt => (default, d)
  | FJson v => (v, d)
  end.

(** [_write(TRADES_FILE, data)]. *)
Definition _write_trades (d : disk) (data : pyval) : disk :=
  {| users_file := users_file d; trades_file := FJson data |}.

(** ** Profile normalisation *)

(** The [defaults] table of [_ensure_user_defaults]; [0.66] and [0.33]
    are written as the binary64 values the literals denote. *)
Definition defaults : dict :=
  [ ("USE_RSI", PBool true); ("RSI_PERIOD", PInt 14);
    ("RSI_OVERSOLD", PInt 40); ("RSI_OVERBOUGHT", PInt 60);
    ("USE_EMA", PBool true); ("FAST_MA", PInt 50); ("SLOW_MA", PInt 200);
    ("USE_MACD", PBool true); ("MACD_FAST", PInt 8); ("MACD_SLOW", PInt 21);
    ("MACD_SIGNAL", PInt 5);
    ("USE_OI", PBool false); ("OI_WINDOW", PInt 3);
    ("OI_MIN_CHANGE_PCT", PFloat 5%float); ("OI_DIRECTION", PStr "up");
    ("BUY_CONFIRMATION_RATIO", PFloat 0x1.51eb851eb851fp-1%float);
    ("SELL_CONFIRMATION_RATIO", PFloat 0x1.51eb851eb851fp-2%float);
    ("ORDER_PERCENT", PFloat 10%float); ("ORDER_SIZE_USD", PFloat 0%float);
    ("TP_PCT", PFloat 1%float); ("SL_PCT", PFloat 0.5%float);
    ("QTY_PRECISION", PInt 6);
    ("MIN_NOTIONAL", PFloat 5%float);
    ("SYMBOLS", PList [PStr "BTCUSDT"]);
    ("TESTNET", PBool true);
    ("DRY_RUN", PBool true);
    ("DISABLED_AUTH", PBool false) ].

(** [for k, v in table.items(): s.setdefault(k, v)]. *)
Definition fill (table : dict) (s : dict) : dict :=
  fold_left (fun acc kv => setdefault (fst kv) (snd kv) acc) table s.

(** The top-level defaults, for the user key [uid] (already a string)
    and the [username] argument. *)
Definition top_defaults (uid : string) (username : pyval) : dict :=
  [ ("username", py_or username (PStr ("user_" ++ uid)));
    ("api_key", PStr "");
    ("api_secret", PStr "");
    ("sub_until", PNone) ].

(** The body of [_ensure_user_defaults] on the profile [u = users[uid]]. *)
Definition normalize_profile (uid : string) (username : pyval) (u : dict)
  : dict :=
  let u := fill (top_defaults uid username) u in
  let u := match lookup "settings" u with
           | Some (PDict _) => u
           | _ => set "settings" (PDict []) u
           end in
  let u := match lookup "settings" u with
           | Some (PDict s) => set "settings" (PDict (fill defaults s)) u
           | _ => u
           end in
  setdefault "_positions" (PDict []) u.

(** The settings a profile is normalised from: its own when it holds a
    dict there, none otherwise. *)
Definition settings_of (u : dict) : dict :=
  match lookup "settings" u with Some (PDict s) => s | _ => [] end.

(** Every top-level key [_ensure_user_defaults] gives a default to,
    [settings] apart. *)
Definition top_table (uid : string) (username : pyval) : dict :=
  (top_defaults uid username ++ [("_positions", PDict [])])%list.

Section WithRuntime.
Context {RT : Runtime}.

(** [_ensure_user_defaults(users, uid, username)].  [None] stands for
    the [AttributeError] raised by [u.setdefault] when [users[uid]] is
    not a dict; nothing has been changed by then. *)
Definition _ensure_user_defaults (users : dict) (uid : pyval)
  (username : pyval) : option dict :=
  let uid := py_str uid in
  let users := if mem uid users then users else set uid (PDict []) users in
  match lookup uid users with
  | Some (PDict u) =>
      Some (set uid (PDict (normalize_profile uid username u)) users)
  | _ => None
  end.

(** ** The ledger *)

(** [l[start:]]. *)
Definition slice_from {A : Type} (start : Z) (l : list A) : list A :=
  let n := Z.of_nat (List.length l) in
  let i := if Z.ltb start 0 then Z.max (n + start) 0 else Z.min start n in
  skipn (Z.to_nat i) l.

(** [str(t.get('user_id')) == uid] for one ledger entry; [None] stands
    for the [AttributeError] of [t.get] on an entry that is not a dict. *)
Definition trade_matches (uid : string) (t : pyval) : option bool :=
  match t with
  | PDict d => Some (String.eqb (py_str (get_none "user_id" d)) uid)
  | _ => None
  end.

(** The same test as a filter on entries that are dicts. *)
Definition owned_by (uid : string) (t : pyval) : bool :=
  match trade_matches uid t with Some b => b | None => false end.

(** The list comprehension [[t for t in trades if ...]]. *)
Fixpoint select_trades (uid : string) (trades : list pyval)
  : option (list pyval) :=
  match trades with
  | [] => Some []
  | t :: rest =>
      match trade_matches uid t with
      | None => None
      | Some b =>
          match select_trades uid rest with
          | None => None
          | Some sel => Some (if b then t :: sel else sel)
          end
      end
  end.

(** [get_trades_for_user(uid, limit)]: the result ([None] when the call
    raises: the stored value is not an array of objects) and the disk
    afterwards. *)
Definition get_trades_for_user (d : disk) (uid : pyval) (limit : Z)
  : option (list pyval) * disk :=
  let '(trades, d') := _read_trades d (PList []) in
  let uid := py_str uid in
  match trades with
  | PList ts =>
      (option_map (slice_from (- limit)) (select_trades uid ts), d')
  | _ => (None, d')
  end.

(** [append_trade(trade)]: [None] stands for the [AttributeError] of
    [trades.append] on a stored value that is not an array. *)
Definition append_trade (d : disk) (trade : pyval) : option disk :=
  let '(trades, d') := _read_trades d (PList []) in
  match trades with
  | PList ts => Some (_write_trades d' (PList (ts ++ [trade])))
  | _ => None
  end.

End WithRuntime.

End Store.

(* ================================================================== *)
(** * trading_core.py *)
(* ================================================================== *)

Module Core.
Import Py.

(** ** The OHLCV normaliser *)

(** One row of the resulting frame: the index [t] in nanoseconds since
    the epoch (UTC) and the five numeric columns, [nan] when unset. *)
Record row : Type := {
  r_t : Z;
  r_open : float;
  r_high : float;
  r_low : float;
  r_close : float;
  r_volume : float
}.

Definition frame : Type := list row.

(** What the normaliser is handed: a frame, or a decoded value. *)
Inductive raw_input : Type :=
| RawFrame (df : frame)
| RawVal (v : pyval).

(** The tuple [(ts, o, h, l, c, vol)] appended to [rows]. *)
Record raw_row : Type := {
  rr_ts : pyval;
  rr_o : pyval;
  rr_h : pyval;
  rr_l : pyval;
  rr_c : pyval;
  rr_vol : pyval
}.

(** [for v in raw.values(): if isinstance(v, list): items = v; break];
    [PNone] when no value is a list. *)
Fixpoint first_list (vs : list pyval) : pyval :=
  match vs with
  | [] => PNone
  | PList l :: _ => PList l
  | _ :: rest => first_list rest
  end.

(** The [else] branch of the search for [items] in a dict [raw]. *)
Definition items_fallback (d : dict) : pyval :=
  match lookup "list" d with
  | Some (PList l) => PList l
  | _ => first_list (values d)
  end.

(** The value of [items] before the test [if not items]. *)
Definition find_items (raw : pyval) : pyval :=
  match raw with
  | PDict d =>
      match get "result" raw d with
      | PDict rd =>
          match lookup "list" rd with
          | Some v => v
          | None =>
              match lookup "data" rd with
              | Some (PList l) => PList l
              | _ => items_fallback d
              end
          end
      | PList l => PList l
      | _ => items_fallback d
      end
  | PList l => PList l
  | _ => PNone
  end.

(** The body of [for it in items]: the tuple for one item, or [None]
    when the item is skipped. *)
Definition extract_row (it : pyval) : option raw_row :=
  match it with
  | PList (ts :: o :: h :: l :: c :: more) =>
      Some {| rr_ts := ts; rr_o := o; rr_h := h; rr_l := l; rr_c := c;
              rr_vol := match more with vol :: _ => vol | [] => PNone end |}
  | PDict d =>
      Some {| rr_ts := py_or (get_none "t" d)
                         (py_or (get_none "start" d)
                            (py_or (get_none "timestamp" d)
                               (get_none "time" d)));
              rr_o := get "open" (get_none "o" d) d;
              rr_h := get "high" (get_none "h" d) d;
              rr_l := get "low" (get_none "l" d) d;
              rr_c := get "close" (get_none "c" d) d;
              rr_vol := get "volume" (get_none "v" d) d |}
  | _ => None
  end.

Fixpoint extract_rows (items : list pyval) : list raw_row :=
  match items with
  | [] => []
  | it :: rest =>
      match extract_row it with
      | Some r => r :: extract_rows rest
      | None => extract_rows rest
      end
  end.

(** [rows] as the loop leaves it; [None] when the function has returned
    [None] by then.  An [items] that is not a list never yields a row:
    the items of a string or of a dict are strings, which the loop
    skips, and a number is not iterable, which the handler turns into
    [None]. *)
Definition collect_rows (raw : pyval) : option (list raw_row) :=
  let items := find_items raw in
  if truthy items then
    match items with
    | PList l =>
        match extract_rows l with
        | [] => None
        | rows => Some rows
        end
    | _ => None
    end
  else None.

Section WithRuntime.
Context {RT : Runtime}.

(** [_to_dt]: [None] is [NaT].  The text of a bool or of a float is
    never all digits, so these go to the general conversion: a float
    is not read as milliseconds. *)
Definition _to_dt (x : pyval) : option Z :=
  match x with
  | PNone => None
  | PInt z =>
      if isdigit (py_str x) then to_datetime_ms z else to_datetime x
  | PStr s =>
      if isdigit s then
        match int_of_str s with
        | Some z => to_datetime_ms z
        | None => None
        end
      else to_datetime x
  | _ => to_datetime x
  end.

(** A row of the frame, for a tuple whose timestamp converted to [t]:
    the five columns go through [pd.to_numeric(errors="coerce")]. *)
Definition row_of (t : Z) (r : raw_row) : row :=
  {| r_t := t;
     r_open := to_numeric (rr_o r);
     r_high := to_numeric (rr_h r);
     r_low := to_numeric (rr_l r);
     r_close := to_numeric (rr_c r);
     r_volume := to_numeric (rr_vol r) |}.

(** The cell of column [t] that [df["t"].apply(_to_dt)] converts for
    the tuple [r], in the frame built from the tuples with the
    timestamps [col]. *)
Definition t_cell (col : list pyval) (r : raw_row) : pyval :=
  column_cell col (rr_ts r).

(** The rows [df.dropna(subset=["t"])] keeps after the two
    conversions, in a frame whose column [t] was built from [col]. *)
Fixpoint dropna_col (col : list pyval) (rows : list raw_row) : frame :=
  match rows with
  | [] => []
  | r :: rest =>
      match _to_dt (t_cell col r) with
      | Some t => row_of t r :: dropna_col col rest
      | None => dropna_col col rest
      end
  end.

(** [pd.DataFrame(rows, columns=...)], the two conversions and
    [dropna(subset=["t"])]. *)
Definition dropna_t (rows : list raw_row) : frame :=
  dropna_col (map rr_ts rows) rows.

End WithRuntime.

(** [set_index("t").sort_index()]: ascending by [t].  pandas does not
    fix the order of rows with equal [t]; here a row goes before the
    first row that is not earlier. *)
Fixpoint insert_row (x : row) (df : frame) : frame :=
  match df with
  | [] => [x]
  | y :: rest =>
      if Z.leb (r_t x) (r_t y) then x :: y :: rest
      else y :: insert_row x rest
  end.

Fixpoint sort_index (df : frame) : frame :=
  match df with
  | [] => []
  | x :: rest => insert_row x (sort_index rest)
  end.

(** The order of the index. *)
Definition le_t (a b : row) : Prop := r_t a <= r_t b.

Section WithRuntime.
Context {RT : Runtime}.

(** [normalize_ohlcv_to_df(raw)]; [None] is the Python [None]. *)
Definition normalize_ohlcv_to_df (raw : raw_input) : option frame :=
  match raw with
  | RawFrame df => Some df
  | RawVal v =>
      match collect_rows v with
      | None => None
      | Some rows => Some (sort_index (dropna_t rows))
      end
  end.

End WithRuntime.

(** ** Indicators: the RSI fallback

    A [pd.Series] of floats is a list, [nan] standing for a missing
    value.  The pandas operations follow pandas' definitions: [diff],
    [clip], and the recurrence of [ewm(alpha, adjust=False).mean()]
    with its defaults ([ignore_na=False], [min_periods=0]). *)

Definition series : Type := list float.

Fixpoint diff_from (prev : float) (l : series) : series :=
  match l with
  | [] => []
  | y :: rest => (y - prev)%float :: diff_from y rest
  end.

(** [close.diff()]. *)
Definition diff (close : series) : series :=
  match close with
  | [] => []
  | x :: rest => nan :: diff_from x rest
  end.

(** [x.clip(lower=0)] and [x.clip(upper=0)] on one value: a missing
    value stays missing. *)
Definition clip_lower0 (x : float) : float :=
  if PrimFloat.is_nan x || PrimFloat.leb 0 x then x else 0%float.

Definition clip_upper0 (x : float) : float :=
  if PrimFloat.is_nan x || PrimFloat.leb x 0 then x else 0%float.

(** One step of the exponentially weighted mean: [weighted] is the
    running mean ([nan] before the first observation), [old_wt] the
    weight it carries. *)
Definition ewm_step (factor new_wt : float) (st : float * float)
  (cur : float) : float * float :=
  let '(weighted, old_wt) := st in
  let is_observation := PrimFloat.eqb cur cur in
  if PrimFloat.eqb weighted weighted then
    let old_wt := (old_wt * factor)%float in
    if is_observation then
      (if PrimFloat.eqb weighted cur then weighted
       else ((old_wt * weighted + new_wt * cur) / (old_wt + new_wt))%float,
       1%float)
    else (weighted, old_wt)
  else if is_observation then (cur, old_wt)
  else (weighted, old_wt).

Fixpoint ewm_loop (factor new_wt : float) (st : float * float)
  (vals : series) : series :=
  match vals with
  | [] => []
  | cur :: rest =>
      let st' := ewm_step factor new_wt st cur in
      fst st' :: ewm_loop factor new_wt st' rest
  end.

(** What a window function of pandas computes on: an infinite value
    is replaced by [nan] beforehand. *)
Definition prep_value (x : float) : float :=
  if PrimFloat.is_infinity x then nan else x.

Definition prep_values (vals : series) : series := map prep_value vals.

(** [vals.ewm(alpha=alpha, adjust=False).mean()]: pandas keeps the
    centre of mass [(1 - alpha) / alpha] and derives the weights from
    it. *)
Definition ewm_mean (alpha : float) (vals : series) : series :=
  match prep_values vals with
  | [] => []
  | x0 :: rest =>
      let com := ((1 - alpha) / alpha)%float in
      let a := (1 / (1 + com))%float in
      x0 :: ewm_loop (1 - a)%float a (x0, 1%float) rest
  end.

(** Element-wise operations on two series of the same index. *)
Fixpoint zip_with (f : float -> float -> float) (a b : series) : series :=
  match a, b with
  | x :: a', y :: b' => f x y :: zip_with f a' b'
  | _, _ => []
  end.

(** The [ta] package, when it can be imported: the result of
    [RSIIndicator(close, window=period).rsi()], [None] when the call
    raises. *)
Definition ta_rsi : Type := series -> Z -> option series.

(** The code after the [ta] attempt.  [1/period] raises for period [0],
    and pandas refuses an [alpha] outside [(0, 1]], which a negative
    period gives: [None] stands for both.  The conversion of the period
    to a float is exact below [2^53]. *)
Definition rsi_fallback (close : series) (period : Z) : option series :=
  if Z.leb period 0 then None
  else
    let alpha := (1 / PrimFloat.of_uint63 (Uint63.of_Z period))%float in
    let delta := diff close in
    let up := map clip_lower0 delta in
    let down := map (fun x => (- clip_upper0 x)%float) delta in
    let ma_up := ewm_mean alpha up in
    let ma_down := ewm_mean alpha down in
    let rs := zip_with PrimFloat.div ma_up ma_down in
    Some (map (fun r => (100 - 100 / (1 + r))%float) rs).

(** [rsi_series(close, period)]; [ta] is [None] when [_HAS_TA] is
    false. *)
Definition rsi_series (ta : option ta_rsi) (close : series) (period : Z)
  : option series :=
  match ta with
  | Some rsi =>
      match rsi close period with
      | Some r => Some r
      | None => rsi_fallback close period
      end
  | None => rsi_fallback close period
  end.

(** ** The built-in exchange client *)

(** What the HTTP layer does with one private request: [requests]
    raises (time-out, connection failure; [msg] is [str(e)]), or a
    response arrives with its status code, its body text and, when the
    body decodes, its JSON value. *)
Inductive http_outcome : Type :=
| HttpRaise (msg : string)
| HttpResponse (status : Z) (text : string) (json : option pyval).

(** The value [_private_request] returns. *)
Definition _private_request (h : http_outcome) : pyval :=
  match h with
  | HttpRaise msg => PDict [("retCode", PInt (-1)); ("retMsg", PStr msg)]
  | HttpResponse _ _ (Some j) => j
  | HttpResponse status text None =>
      PDict [("retCode", PInt status);
             ("retMsg",
              PStr (if String.eqb text "" then "HTTP " ++ str_of_Z status
                    else text))]
  end.

(** The envelope of the handler of [get_balance_usdt]. *)
Definition exception_envelope : pyval :=
  PDict [("retCode", PInt (-1)); ("retMsg", PStr "exception")].

(** The loop over [res["list"]]: it raises on an item that is not a
    dict, returns at the first item whose coin is USDT, or ends. *)
Inductive scan : Type :=
| ScanRaise
| ScanEnd
| ScanFound (equity : pyval).

Fixpoint find_usdt (items : list pyval) : scan :=
  match items with
  | [] => ScanEnd
  | PDict it :: rest =>
      match get_none "coin" it with
      | PStr c =>
          if String.eqb c "USDT" then ScanFound (get "equity" (PInt 0) it)
          else find_usdt rest
      | _ => find_usdt rest
      end
  | _ :: _ => ScanRaise
  end.

Section WithRuntime.
Context {RT : Runtime}.

(** [float(v or 0)] under the handler. *)
Definition float_or_envelope (v : pyval) : pyval :=
  match py_float (py_or v (PInt 0)) with
  | Some f => PFloat f
  | None => exception_envelope
  end.

(** [get_balance_usdt] once [_private_request] has returned [j]. *)
Definition balance_of_response (j : pyval) : pyval :=
  match j with
  | PDict d =>
      if mem "retCode" d || mem "retMsg" d then j
      else
        match py_or (get_none "result" d) (PDict []) with
        | PDict res =>
            let by_key :=
              match lookup "USDT" res with
              | Some v => float_or_envelope v
              | None => PFloat 0%float
              end in
            match lookup "list" res with
            | Some (PList items) =>
                match find_usdt items with
                | ScanRaise => exception_envelope
                | ScanFound equity => float_or_envelope equity
                | ScanEnd => by_key
                end
            | _ => by_key
            end
        | _ => PFloat 0%float
        end
  | _ => exception_envelope
  end.

(** [BybitClient.get_balance_usdt] for a client holding [api_secret]:
    signing needs [api_secret.encode()], which raises on a secret that
    is not a string, before any request is sent. *)
Definition builtin_get_balance_usdt (api_secret : pyval) (h : http_outcome)
  : pyval :=
  match api_secret with
  | PStr _ => balance_of_response (_private_request h)
  | _ => exception_envelope
  end.

End WithRuntime.

(** ** The world around one cycle *)

(** One call of [get_balance_usdt]: on a client of the local [client]
    module or on the built-in one, with its credentials and its
    environment flag. *)
Record call : Type := {
  c_local : bool;
  c_key : pyval;
  c_secret : pyval;
  c_testnet : bool
}.

(** The outcome of a call into code that may raise. *)
Inductive outcome : Type :=
| Returned (v : pyval)
| Raised.

(** The optional local module [client.py], which is not part of the
    repository: whether its [BybitClient(...)] constructor returns
    ([true]) or raises, and what its [get_balance_usdt] does, given the
    calls made before in the cycle. *)
Record local_client : Type := {
  lc_init : pyval -> pyval -> bool -> bool;
  lc_get_balance_usdt : list call -> call -> outcome
}.

Record environment : Type := {
  (** [client_module], [None] when the import failed *)
  client_module : option local_client;
  (** the network, for the built-in client, given the calls made before
      in the cycle *)
  http : list call -> call -> http_outcome;
  (** [datetime.utcnow()] in microseconds when the user stored under
      the given key is examined *)
  utcnow : string -> Z
}.

(** The messages of [run_once], of the probe and of the loop around
    [run_once]. *)
Inductive log_entry : Type :=
| LogUsersInvalid
| LogSkipDisabled (uid : Z)
| LogMissingKeys (uid : Z)
| LogLocalClient (ok : bool)
| LogAuthFailure (uid : Z) (count : pyval)
| LogTryAlternate (uid : Z) (testnet alt : bool)
| LogAutoCorrected (uid : Z) (alt : bool)
| LogAlternateFailed (uid : Z)
| LogDisabled (uid : Z)
| LogCrashed.

(** The state of a cycle: the mapping [users] in memory, the two files,
    the calls of [get_balance_usdt] made so far (oldest first) and the
    log. *)
Record state : Type := {
  users : dict;
  disk : Store.disk;
  calls : list call;
  log : list log_entry
}.

Definition with_users (us : dict) (st : state) : state :=
  {| users := us; disk := disk st; calls := calls st; log := log st |}.

Definition add_log (l : log_entry) (st : state) : state :=
  {| users := users st; disk := disk st; calls := calls st;
     log := (log st ++ [l])%list |}.

Definition add_call (c : call) (st : state) : state :=
  {| users := users st; disk := disk st;
     calls := (calls st ++ [c])%list; log := log st |}.

(** [save_users(users)]. *)
Definition save_users (st : state) : state :=
  {| users := users st;
     disk := {| Store.users_file := Store.FJson (PDict (users st));
                Store.trades_file := Store.trades_file (disk st) |};
     calls := calls st; log := log st |}.

(** [users[k][field] = v], for a profile that is a dict. *)
Definition set_field (k field : string) (v : pyval) (us : dict) : dict :=
  match lookup k us with
  | Some (PDict u) => set k (PDict (set field v u)) us
  | _ => us
  end.

(** How a step ends: normally, or by an exception that leaves the
    function, with the state reached. *)
Inductive result : Type :=
| Done (st : state)
| Raise (st : state).

Definition result_state (r : result) : state :=
  match r with Done st | Raise st => st end.

(** [decode_api_key]: [db_json] has no [decode_key], so a non-empty
    value is returned as it is. *)
Definition decode_api_key (maybe_encoded : pyval) : pyval :=
  if truthy maybe_encoded then maybe_encoded else PStr "".

(** The client a cycle ends up with for these arguments: the local one
    when the module is there and its constructor returns, the built-in
    one otherwise. *)
Definition make_client (e : environment) (api_key api_secret : pyval)
  (testnet : bool) : call :=
  {| c_local := match client_module e with
                | Some lc => lc_init lc api_key api_secret testnet
                | None => false
                end;
     c_key := api_key; c_secret := api_secret; c_testnet := testnet |}.

(** [v + 1]; [None] is [TypeError]. *)
Definition py_add1 (v : pyval) : option pyval :=
  match v with
  | PBool b => Some (PInt (if b then 2 else 1))
  | PInt z => Some (PInt (z + 1))
  | PFloat f => Some (PFloat (f + 1)%float)
  | _ => None
  end.

(** [v == 1] and [v >= 3] on the counter after [py_add1]. *)
Definition is_one (v : pyval) : bool :=
  match v with
  | PInt z => Z.eqb z 1
  | PFloat f => PrimFloat.eqb f 1%float
  | _ => false
  end.

Definition at_least_three (v : pyval) : bool :=
  match v with
  | PInt z => Z.leb 3 z
  | PFloat f => PrimFloat.leb 3%float f
  | _ => false
  end.

(** [isinstance(bal, (int, float)) and bal >= 0]. *)
Definition is_balance (bal : pyval) : bool :=
  match bal with
  | PBool _ => true
  | PInt z => Z.leb 0 z
  | PFloat f => PrimFloat.leb 0%float f
  | _ => false
  end.

Section WithRuntime.
Context {RT : Runtime}.

(** [c.get_balance_usdt()] after the calls [before]. *)
Definition get_balance_usdt (e : environment) (before : list call)
  (c : call) : outcome :=
  if c_local c then
    match client_module e with
    | Some lc => lc_get_balance_usdt lc before c
    | None => Raised
    end
  else Returned (builtin_get_balance_usdt (c_secret c) (http e before c)).

(** The classification of [balance_resp] in [run_once]. *)
Definition is_auth_failure (balance_resp : pyval) : bool :=
  match balance_resp with
  | PDict d =>
      let rc := py_str (py_or (get "retCode" (PStr "") d)
                              (get "code" (PStr "") d)) in
      let rm := py_str (py_or (get "retMsg" (PStr "") d)
                              (get "message" (PStr "") d)) in
      String.eqb rc "401"
      || contains "unauthor" (lower rm)
      || contains "invalid api" (lower rm)
      || contains "invalid apikey" (lower rm)
  | _ => false
  end.

(** The test on [sub_until]: [true] when the loop goes on to the next
    user.  A value that does not parse, or a date with a time zone
    (which does not compare with [utcnow()]), raises inside the [try]
    and the user is kept. *)
Definition subscription_expired (e : environment) (k : string)
  (sub_until : pyval) : bool :=
  truthy sub_until &&
  match fromisoformat (py_str sub_until) with
  | Some (Naive us) => Z.ltb us (utcnow e k)
  | _ => false
  end.

(** [try_alternate_env_and_fix_user]: its result and the state after
    it.  Every exception is caught: a raising [get_balance_usdt], the
    [KeyError] of [users[str(uid)]], the [AttributeError] of a profile
    that is not a dict, the [TypeError] of a [settings] that is not a
    dict. *)
Definition try_alternate_env_and_fix_user (e : environment)
  (api_key api_secret : pyval) (current_testnet : bool) (uid : Z)
  (st : state) : bool * state :=
  let alt := negb current_testnet in
  let st := add_log (LogTryAlternate uid current_testnet alt) st in
  let c := make_client e api_key api_secret alt in
  let before := calls st in
  let st := add_call c st in
  match get_balance_usdt e before c with
  | Raised => (false, add_log (LogAlternateFailed uid) st)
  | Returned bal =>
      if is_balance bal then
        let k := str_of_Z uid in
        match lookup k (users st) with
        | Some (PDict u) =>
            let sv := get "settings" (PDict []) u in
            let st := with_users (set_field k "settings" sv (users st)) st in
            match sv with
            | PDict s =>
                let s' := set "TESTNET" (PBool alt) s in
                let st := with_users
                            (set_field k "settings" (PDict s') (users st))
                            st in
                let st := save_users st in
                (true, add_log (LogAutoCorrected uid alt) st)
            | _ => (false, add_log (LogAlternateFailed uid) st)
            end
        | _ => (false, add_log (LogAlternateFailed uid) st)
        end
      else (false, st)
  end.

(** The first part of the loop body, up to the construction of the
    client: the key is not an integer ([continue]), an exception leaves
    the function, the user is skipped (with the message logged, if
    any), or the balance is to be checked. *)
Inductive gate_result : Type :=
| GateBadKey
| GateFault
| GateSkip (msg : option log_entry)
| GateProceed (uid : Z) (api_key api_secret : pyval) (testnet : bool).

Definition gate (e : environment) (k : string) (us : dict) : gate_result :=
  match int_of_str k with
  | None => GateBadKey
  | Some uid =>
      match lookup k us with
      | Some (PDict u) =>
          match py_or (get_none "settings" u) (PDict []) with
          | PDict settings =>
              if truthy (get "DISABLED_AUTH" (PBool false) settings)
              then GateSkip (Some (LogSkipDisabled uid))
              else if subscription_expired e k (get_none "sub_until" u)
              then GateSkip None
              else
                let api_key :=
                  decode_api_key (py_or (get "api_key" (PStr "") u)
                                        (PStr "")) in
                let api_secret :=
                  decode_api_key (py_or (get "api_secret" (PStr "") u)
                                        (PStr "")) in
                if negb (truthy api_key) || negb (truthy api_secret)
                then GateSkip (Some (LogMissingKeys uid))
                else GateProceed uid api_key api_secret
                       (truthy (get "TESTNET" (PBool true) settings))
          | _ => GateFault
          end
      | _ => GateFault
      end
  end.

(** [u.setdefault('settings', {})['DISABLED_AUTH'] = True]; [None] is
    the [TypeError] of a [settings] that is not a dict. *)
Definition disable_auth (u : dict) : option dict :=
  match lookup "settings" u with
  | None => Some (set "settings" (PDict [("DISABLED_AUTH", PBool true)]) u)
  | Some (PDict s) =>
      Some (set "settings" (PDict (set "DISABLED_AUTH" (PBool true) s)) u)
  | Some _ => None
  end.

(** The branch [if auth_failed:]. *)
Definition on_auth_failure (e : environment) (k : string) (uid : Z)
  (api_key api_secret : pyval) (testnet : bool) (st : state) : result :=
  match lookup k (users st) with
  | Some (PDict u) =>
      match py_add1 (get "_auth_failures" (PInt 0) u) with
      | None => Raise st
      | Some count =>
          let st := with_users (set_field k "_auth_failures" count (users st))
                      st in
          let st := save_users st in
          let st := add_log (LogAuthFailure uid count) st in
          let st := if is_one count
                    then snd (try_alternate_env_and_fix_user
                                e api_key api_secret testnet uid st)
                    else st in
          if at_least_three count then
            match lookup k (users st) with
            | Some (PDict u') =>
                match disable_auth u' with
                | Some u'' =>
                    let st := with_users (set k (PDict u'') (users st)) st in
                    let st := save_users st in
                    Done (add_log (LogDisabled uid) st)
                | None => Raise st
                end
            | _ => Raise st
            end
          else Done st
      end
  | _ => Raise st
  end.

(** The branch [else:]. *)
Definition on_success (k : string) (st : state) : result :=
  Done (save_users
          (with_users (set_field k "_auth_failures" (PInt 0) (users st)) st)).

(** The state after the client has been made: the local constructor,
    when there is a local module, logs its success or its failure. *)
Definition log_client (e : environment) (c : call) (st : state) : state :=
  match client_module e with
  | Some _ => add_log (LogLocalClient (c_local c)) st
  | None => st
  end.

(** The body of [for uid_str, u in list(users.items())] for the key
    [k]; [u] is the profile the mapping holds under [k]. *)
Definition run_user (e : environment) (k : string) (st : state) : result :=
  match gate e k (users st) with
  | GateBadKey => Done st
  | GateFault => Raise st
  | GateSkip None => Done st
  | GateSkip (Some msg) => Done (add_log msg st)
  | GateProceed uid api_key api_secret testnet =>
      let c := make_client e api_key api_secret testnet in
      let st := log_client e c st in
      let before := calls st in
      let st := add_call c st in
      match get_balance_usdt e before c with
      | Raised => Raise st
      | Returned balance_resp =>
          if is_auth_failure balance_resp
          then on_auth_failure e k uid api_key api_secret testnet st
          else on_success k st
      end
  end.

(** The loop over the keys the mapping had when the loop started. *)
Fixpoint run_users (e : environment) (ks : list string) (st : state)
  : result :=
  match ks with
  | [] => Done st
  | k :: rest =>
      match run_user e k st with
      | Done st' => run_users e rest st'
      | Raise st' => Raise st'
      end
  end.

(** The creation of [trades.json] at the start of [run_once]. *)
Definition ensure_trades (d : Store.disk) : Store.disk :=
  match Store.trades_file d with
  | Store.FMissing =>
      {| Store.users_file := Store.users_file d;
         Store.trades_file := Store.FJson (PList []) |}
  | _ => d
  end.

(** The state in which the loop of [run_once] starts. *)
Definition initial_state (us : dict) (d : Store.disk) : state :=
  {| users := us; disk := d; calls := []; log := [] |}.

(** [run_once()], started on the two files.  A missing [users.json]
    reads as an empty mapping; one that does not decode makes
    [load_users] raise; one that holds no object is reported. *)
Definition run_once (e : environment) (d : Store.disk) : result :=
  match Store.users_file d with
  | Store.FMissing => Done (initial_state [] (ensure_trades d))
  | Store.FCorrupt => Raise (initial_state [] d)
  | Store.FJson (PDict us) =>
      run_users e (keys us) (initial_state us (ensure_trades d))
  | Store.FJson _ => Done (add_log LogUsersInvalid (initial_state [] d))
  end.

(** One turn of the [loop] entry point: an exception that leaves
    [run_once] is caught and logged, and the files are what the cycle
    left. *)
Definition loop_cycle (e : environment) (d : Store.disk)
  : Store.disk * list log_entry :=
  match run_once e d with
  | Done st => (disk st, log st)
  | Raise st => (disk st, (log st ++ [LogCrashed])%list)
  end.

(** ** Observations on a cycle *)

(** The state in which the loop over [ks] starts the iteration of the
    key [k]; [None] when it does not get there. *)
Fixpoint state_at (e : environment) (ks : list string) (k : string)
  (st : state) : option state :=
  match ks with
  | [] => None
  | k' :: rest =>
      if String.eqb k k' then Some st
      else match run_user e k' st with
           | Done st' => state_at e rest k st'
           | Raise _ => None
           end
  end.

(** The value of [auth_failed] in an iteration started in [st]; [None]
    when the iteration does not get to the classification. *)
Definition classified (e : environment) (k : string) (st : state)
  : option bool :=
  match gate e k (users st) with
  | GateProceed uid api_key api_secret testnet =>
      let c := make_client e api_key api_secret testnet in
      match get_balance_usdt e (calls (log_client e c st)) c with
      | Returned balance_resp => Some (is_auth_failure balance_resp)
      | Raised => None
      end
  | _ => None
  end.

(** The value of [auth_failed] for the user [k] in the cycle started on
    the files [d]. *)
Definition cycle_classifies (e : environment) (d : Store.disk) (k : string)
  : option bool :=
  match Store.users_file d with
  | Store.FJson (PDict us) =>
      match state_at e (keys us) k (initial_state us (ensure_trades d)) with
      | Some st => classified e k st
      | None => None
      end
  | _ => None
  end.

(** The profile stored under [k] in [users.json]. *)
Definition stored_profile (d : Store.disk) (k : string) : option pyval :=
  match Store.users_file d with
  | Store.FJson (PDict us) => lookup k us
  | _ => None
  end.

(** [settings.DISABLED_AUTH] of a stored profile. *)
Definition stored_disabled (d : Store.disk) (k : string) : option pyval :=
  match stored_profile d k with
  | Some (PDict u) =>
      match lookup "settings" u with
      | Some (PDict s) => lookup "DISABLED_AUTH" s
      | _ => None
      end
  | _ => None
  end.

(** A field of a stored profile. *)
Definition stored_field (d : Store.disk) (k field : string)
  : option pyval :=
  match stored_profile d k with
  | Some (PDict u) => lookup field u
  | _ => None
  end.

(** The files a cycle leaves, whether it ends or raises. *)
Definition after_cycle (e : environment) (d : Store.disk) : Store.disk :=
  disk (result_state (run_once e d)).

End WithRuntime.

(** [users.json] holds what the mapping in memory holds. *)
Definition synced (st : state) : Prop :=
  Store.users_file (disk st) = Store.FJson (PDict (users st)).

(** What an iteration for another user may do to a profile: nothing
    outside [settings], and inside [settings] nothing but [TESTNET]. *)
Definition keeps_auth (v v' : option pyval) : Prop :=
  match v with
  | Some (PDict u) =>
      exists u', v' = Some (PDict u')
        /\ (forall f, f <> "settings" -> lookup f u' = lookup f u)
        /\ (forall s, lookup "settings" u = Some (PDict s) ->
            exists s', lookup "settings" u' = Some (PDict s')
              /\ forall f, f <> "TESTNET" -> lookup f s' = lookup f s)
  | _ => v' = v
  end.

(** From [st] to [st']: the file stays in step with the mapping, the
    keys of the mapping stay, and every profile except possibly the one
    under [own] is kept in the sense of [keeps_auth]. *)
Definition frames (own : option string) (st st' : state) : Prop :=
  (synced st -> synced st')
  /\ keys (users st') = keys (users st)
  /\ (forall k, own <> Some k ->
      keeps_auth (lookup k (users st)) (lookup k (users st'))).

(** The profile under [k] is a dict with [n] authentication failures
    counted and a dict of settings. *)
Definition counted (k : string) (n : Z) (us : dict) : Prop :=
  exists u s, lookup k us = Some (PDict u)
    /\ get "_auth_failures" (PInt 0) u = PInt n
    /\ lookup "settings" u = Some (PDict s).

(** The profile under [k] has [settings.DISABLED_AUTH] set. *)
Definition disabled (k : string) (us : dict) : Prop :=
  exists u s, lookup k us = Some (PDict u)
    /\ lookup "settings" u = Some (PDict s)
    /\ lookup "DISABLED_AUTH" s = Some (PBool true).

End Core.

(* ================================================================== *)
(** * Scenarios: concrete files and exchanges *)
(* ================================================================== *)

Module Scenario.
Import Py Core.

(** A profile with credentials, as the store writes it. *)
Definition profile (failures : pyval) (sub_until : pyval) (testnet : bool)
  : pyval :=
  PDict [ ("username", PStr "user_7");
          ("api_key", PStr "key");
          ("api_secret", PStr "secret");
          ("sub_until", sub_until);
          ("settings", PDict [ ("TESTNET", PBool testnet);
                               ("DISABLED_AUTH", PBool false) ]);
          ("_auth_failures", failures) ].

Definition files (us : dict) : Store.disk :=
  {| Store.users_file := Store.FJson (PDict us);
     Store.trades_file := Store.FJson (PList []) |}.

(** An exchange that answers every private request with HTTP 401 and a
    body that is not JSON. *)
Definition rejecting : environment :=
  {| client_module := None;
     http := fun _ _ => HttpResponse 401 "" None;
     utcnow := fun _ => 0 |}.

(** A network on which every request times out. *)
Definition timing_out : environment :=
  {| client_module := None;
     http := fun _ _ => HttpRaise "Read timed out.";
     utcnow := fun _ => 0 |}.

(** An exchange that knows the key on the production side only: the
    testnet answers 401, production answers with a wallet. *)
Definition production_only : environment :=
  {| client_module := None;
     http := fun _ c =>
       if c_testnet c then HttpResponse 401 "" None
       else HttpResponse 200 "{}"
              (Some (PDict [("result",
                             PDict [("USDT", PFloat 12.5%float)])]));
     utcnow := fun _ => 0 |}.

(** An exchange that answers every request with an empty wallet. *)
Definition accepting : environment :=
  {| client_module := None;
     http := fun _ _ =>
       HttpResponse 200 "{}"
         (Some (PDict [("retCode", PInt 0); ("retMsg", PStr "OK");
                       ("result", PDict [("list", PList [])])]));
     utcnow := fun _ => 0 |}.

(** A local [client] module whose constructor works and whose
    [get_balance_usdt] answers 401 on the testnet and raises on
    production. *)
Definition raising_local : environment :=
  {| client_module :=
       Some {| lc_init := fun _ _ _ => true;
               lc_get_balance_usdt := fun _ c =>
                 if c_testnet c
                 then Returned (PDict [("retCode", PInt 401)])
                 else Raised |};
     http := fun _ _ => HttpRaise "unused";
     utcnow := fun _ => 0 |}.

End Scenario.

(* ================================================================== *)
(** * db_json.py: the operations on profiles *)
(* ================================================================== *)

Module StoreOps.
Import Py Store.

(** [load_users()]: the files are created when missing; a file that
    does not decode reads as the default [{}]. *)
Definition load_users (d : disk) : pyval * disk :=
  let d1 := _ensure_files d in
  (match users_file d1 with FJson v => v | _ => PDict [] end, d1).

(** [save_users(data)]. *)
Definition save_users (data : pyval) (d : disk) : disk :=
  {| users_file := FJson data; trades_file := trades_file d |}.

(** [users[k][field] = v] on a profile that is a dict. *)
Definition set_profile_field (k field : string) (v : pyval) (us : dict)
  : dict :=
  match lookup k us with
  | Some (PDict u) => set k (PDict (set field v u)) us
  | _ => us
  end.

Section WithRuntime.
Context {RT : Runtime}.

(** The first two lines of every operation: [users = load_users()] and
    [users = _ensure_user_defaults(users, uid, username)].  [None]
    stands for the exception raised when the file holds no object
    ([TypeError]) or the profile is not a dict ([AttributeError]). *)
Definition load_normalized (d : disk) (uid username : pyval)
  : option dict * disk :=
  let '(v, d1) := load_users d in
  match v with
  | PDict us => (_ensure_user_defaults us uid username, d1)
  | _ => (None, d1)
  end.

(** [get_user(uid)]: the profile returned and the files afterwards. *)
Definition get_user (d : disk) (uid : pyval) : option pyval * disk :=
  match load_normalized d uid PNone with
  | (Some us, d1) =>
      (Some (get_none (py_str uid) us), save_users (PDict us) d1)
  | (None, d1) => (None, d1)
  end.

(** [create_default_user(uid, username)]. *)
Definition create_default_user (d : disk) (uid username : pyval)
  : option pyval * disk :=
  match load_normalized d uid username with
  | (Some us, d1) =>
      (Some (get_none (py_str uid) us), save_users (PDict us) d1)
  | (None, d1) => (None, d1)
  end.

(** [set_api_keys(uid, api_key, api_secret)], both given as text;
    [None] when the call raises. *)
Definition set_api_keys (d : disk) (uid : pyval) (api_key api_secret : string)
  : option disk :=
  match load_normalized d uid PNone with
  | (Some us, d1) =>
      let k := py_str uid in
      let us := set_profile_field k "api_key" (PStr (strip api_key)) us in
      let us := set_profile_field k "api_secret" (PStr (strip api_secret))
                  us in
      Some (save_users (PDict us) d1)
  | (None, _) => None
  end.

(** [update_setting(uid, key, value)]: the settings returned and the
    files afterwards; [None] when the call raises. *)
Definition update_setting (d : disk) (uid : pyval) (key : string)
  (value : pyval) : option (pyval * disk) :=
  match load_normalized d uid PNone with
  | (Some us, d1) =>
      let k := py_str uid in
      match lookup k us with
      | Some (PDict u) =>
          match lookup "settings" u with
          | Some (PDict st) =>
              let st' := PDict (set key value st) in
              let us' := set_profile_field k "settings" st' us in
              Some (st', save_users (PDict us') d1)
          | _ => None
          end
      | _ => None
      end
  | (None, _) => None
  end.

(** [is_subscribed(uid)] when [datetime.utcnow()] is [now]
    (microseconds): the answer, [None] when [get_user] raises, and the
    files afterwards.  [fromisoformat] is given the stored value as it
    is: a value that is no text, text that does not parse and a date
    with a time zone all raise inside the [try] and give [False]. *)
Definition is_subscribed (d : disk) (uid : pyval) (now : Z)
  : option bool * disk :=
  match get_user d uid with
  | (None, d1) => (None, d1)
  | (Some u, d1) =>
      (match u with
       | PDict ud =>
           if negb (truthy u) || negb (truthy (get_none "sub_until" ud))
           then Some false
           else match get_none "sub_until" ud with
                | PStr s =>
                    match fromisoformat s with
                    | Some (Naive us) => Some (Z.ltb now us)
                    | _ => Some false
                    end
                | _ => Some false
                end
       | PNone => Some false
       | _ => None
       end, d1)
  end.

(** [set_subscription(uid, days)] when [datetime.utcnow()] is [now];
    [isoformat] is [datetime.isoformat] on a date without time zone. *)
Definition set_subscription (isoformat : Z -> string) (d : disk)
  (uid : pyval) (days : Z) (now : Z) : option disk :=
  match load_normalized d uid PNone with
  | (Some us, d1) =>
      let until := PStr (isoformat (now + days * 86400000000)) in
      Some (save_users
              (PDict (set_profile_field (py_str uid) "sub_until" until us))
              d1)
  | (None, _) => None
  end.

End WithRuntime.

(** A runtime for closed examples with dates, in which a date without
    time zone is written as its count of microseconds: it stands in for
    [datetime.isoformat] and [datetime.fromisoformat], of which the
    examples use only that the second reads back what the first
    wrote. *)
Definition count_isoformat (t : Z) : string := str_of_Z t.

Definition counting_runtime : Runtime := {|
  float_repr := float_repr (Runtime := plain_runtime);
  container_repr := container_repr (Runtime := plain_runtime);
  float_of_int := float_of_int (Runtime := plain_runtime);
  float_of_str := float_of_str (Runtime := plain_runtime);
  fromisoformat := fun s => option_map Naive (int_of_str s);
  to_datetime := to_datetime (Runtime := plain_runtime);
  to_datetime_ms := to_datetime_ms (Runtime := plain_runtime);
  column_cell := column_cell (Runtime := plain_runtime);
  to_numeric := to_numeric (Runtime := plain_runtime)
|}.

End StoreOps.

(* ================================================================== *)
(** * trading_core.py: helpers, the ledger, EMA and MACD *)
(* ================================================================== *)

Module CoreMore.
Import Py Core.

(** [append_trade(trade)] of [trading_core.py]: the file is created
    when missing; a stored value that is no array is replaced by an
    empty one; a file that does not decode raises inside the [try], is
    logged and left as it is. *)
Definition append_trade (d : Store.disk) (trade : pyval) : Store.disk :=
  let d1 := ensure_trades d in
  let write ts := {| Store.users_file := Store.users_file d1;
                     Store.trades_file := Store.FJson (PList ts) |} in
  match Store.trades_file d1 with
  | Store.FJson (PList ts) => write (ts ++ [trade])%list
  | Store.FJson _ => write [trade]
  | _ => d1
  end.

(** [k[:n]] and [k[-n:]] for a positive [n]. *)
Definition str_prefix (n : nat) (k : string) : string := substring 0 n k.

Definition str_suffix (n : nat) (k : string) : string :=
  substring (String.length k - n) n k.

(** [mask_key(k)]. *)
Definition mask_key (k : string) : string :=
  if String.eqb k "" then "<empty>"
  else
    let n := String.length k in
    if (n <=? 12)%nat then str_prefix 3 k ++ "..." ++ str_suffix 3 k
    else str_prefix 6 k ++ "..." ++ str_suffix 6 k
         ++ " (len=" ++ str_of_Z (Z.of_nat n) ++ ")".

(** [vals.ewm(span=span, adjust=False).mean()]: pandas turns the span
    into the centre of mass [(span - 1) / 2]. *)
Definition ewm_mean_span (span : float) (vals : series) : series :=
  match prep_values vals with
  | [] => []
  | x0 :: rest =>
      let com := ((span - 1) / 2)%float in
      let a := (1 / (1 + com))%float in
      x0 :: ewm_loop (1 - a)%float a (x0, 1%float) rest
  end.

(** [ema_series(close, period)] for a period below [2^63]; [None] when
    pandas refuses the span (below 1). *)
Definition ema_series (close : series) (period : Z) : option series :=
  if Z.ltb period 1 then None
  else Some (ewm_mean_span (float_of_small period) close).

(** [macd_hist_series(close, fast, slow, signal)]: the MACD line, the
    signal line and the histogram. *)
Definition macd_hist_series (close : series) (fast slow signal : Z)
  : option (series * series * series) :=
  match ema_series close fast, ema_series close slow with
  | Some ema_fast, Some ema_slow =>
      let macd := zip_with PrimFloat.sub ema_fast ema_slow in
      match ema_series macd signal with
      | Some signal_s =>
          Some (macd, signal_s, zip_with PrimFloat.sub macd signal_s)
      | None => None
      end
  | _, _ => None
  end.

End CoreMore.

(* ================================================================== *)
(** * Properties *)
(* ================================================================== *)

Module PyFacts.
Import Py.

(** ** Association lists as dictionaries *)

Lemma lookup_set_same (k : string) (v : pyval) (d : dict) :
  lookup k (set k v d) = Some v.
Proof.
  induction d as [|[k' v'] rest IH]; simpl.
  - now rewrite String.eqb_refl.
  - destruct (String.eqb k k') eqn:E; simpl; rewrite E; auto.
Qed.

Lemma lookup_set_other (k k' : string) (v : pyval) (d : dict) :
  k <> k' -> lookup k (set k' v d) = lookup k d.
Proof.
  intros Hne. induction d as [|[k0 v0] rest IH]; simpl.
  - apply String.eqb_neq in Hne. now rewrite Hne.
  - destruct (String.eqb k' k0) eqn:E; simpl.
    + apply String.eqb_eq in E. subst k0.
      apply String.eqb_neq in Hne. now rewrite Hne.
    + now rewrite IH.
Qed.

Lemma lookup_set (k k' : string) (v : pyval) (d : dict) :
  lookup k (set k' v d) = if String.eqb k k' then Some v else lookup k d.
Proof.
  destruct (String.eqb_spec k k') as [->|Hne].
  - apply lookup_set_same.
  - now apply lookup_set_other.
Qed.

Lemma set_same_value (k : string) (v : pyval) (d : dict) :
  lookup k d = Some v -> set k v d = d.
Proof.
  induction d as [|[k' v'] rest IH]; simpl; [discriminate|].
  destruct (String.eqb k k') eqn:E; intros H.
  - congruence.
  - now rewrite IH.
Qed.

Lemma mem_true_iff (k : string) (d : dict) :
  mem k d = true <-> exists v, lookup k d = Some v.
Proof.
  unfold mem. destruct (lookup k d) as [v|]; split; intros H.
  - now exists v.
  - reflexivity.
  - discriminate.
  - destruct H as [v H]. discriminate.
Qed.

Lemma setdefault_present (k : string) (v : pyval) (d : dict) :
  mem k d = true -> setdefault k v d = d.
Proof. unfold setdefault. now intros ->. Qed.

Lemma lookup_setdefault (k k' : string) (v : pyval) (d : dict) :
  lookup k (setdefault k' v d) =
  match lookup k d with
  | Some x => Some x
  | None => if String.eqb k k' then Some v else None
  end.
Proof.
  unfold setdefault, mem.
  destruct (lookup k' d) as [x'|] eqn:E'.
  - destruct (lookup k d) as [x|] eqn:E; [reflexivity|].
    destruct (String.eqb_spec k k') as [->|]; congruence.
  - rewrite lookup_set.
    destruct (String.eqb_spec k k') as [->|].
    + now rewrite E'.
    + now destruct (lookup k d).
Qed.

End PyFacts.

Module StoreFacts.
Import Py PyFacts Store.

(** ** Filling a dictionary from a table of defaults *)

Lemma lookup_fill (table : dict) : forall (s : dict) (k : string),
  lookup k (fill table s) =
  match lookup k s with Some x => Some x | None => lookup k table end.
Proof.
  unfold fill. induction table as [|[k1 v1] rest IH]; intros s k; simpl.
  - now destruct (lookup k s).
  - rewrite IH, lookup_setdefault.
    destruct (lookup k s); [reflexivity|].
    now destruct (String.eqb k k1).
Qed.

Lemma fill_fixed (table : dict) : forall s : dict,
  (forall k, mem k table = true -> mem k s = true) ->
  fill table s = s.
Proof.
  unfold fill. induction table as [|[k1 v1] rest IH]; intros s H; simpl.
  - reflexivity.
  - assert (H1 : mem k1 s = true).
    { apply H. unfold mem. simpl. now rewrite String.eqb_refl. }
    rewrite (setdefault_present _ _ _ H1). apply IH.
    intros k Hk. apply H. unfold mem in *. simpl.
    destruct (String.eqb k k1); [reflexivity|exact Hk].
Qed.

Lemma mem_fill_table (table s : dict) (k : string) :
  mem k table = true -> mem k (fill table s) = true.
Proof.
  unfold mem. rewrite lookup_fill.
  destruct (lookup k s); [reflexivity|]. now destruct (lookup k table).
Qed.

Lemma fill_fill (table s : dict) : fill table (fill table s) = fill table s.
Proof. apply fill_fixed. intros k. apply mem_fill_table. Qed.

(** ** The profile after normalisation, key by key *)

Lemma lookup_normalize_profile (uid : string) (username : pyval) (u : dict)
  (k : string) :
  lookup k (normalize_profile uid username u) =
  if String.eqb k "settings"
  then Some (PDict (fill defaults (settings_of u)))
  else match lookup k u with
       | Some v => Some v
       | None => lookup k (top_table uid username)
       end.
Proof.
  unfold normalize_profile, settings_of.
  set (u1 := fill (top_defaults uid username) u).
  assert (Hs : lookup "settings" u1 = lookup "settings" u).
  { unfold u1. rewrite lookup_fill. now destruct (lookup "settings" u). }
  set (u2 := match lookup "settings" u1 with
             | Some (PDict _) => u1
             | _ => set "settings" (PDict []) u1
             end).
  assert (H2 : lookup "settings" u2
               = Some (PDict match lookup "settings" u with
                             | Some (PDict s) => s
                             | _ => []
                             end)).
  { unfold u2. rewrite <- Hs.
    destruct (lookup "settings" u1) as [[]|] eqn:E;
      rewrite ?lookup_set_same; auto. }
  assert (H2' : forall k', k' <> "settings" -> lookup k' u2 = lookup k' u1).
  { intros k' Hk'. unfold u2.
    destruct (lookup "settings" u1) as [[]|];
      rewrite ?lookup_set_other; auto. }
  rewrite H2. rewrite lookup_setdefault, lookup_set.
  destruct (String.eqb_spec k "settings") as [->|Hne]; [reflexivity|].
  rewrite (H2' _ Hne). unfold u1. rewrite lookup_fill.
  destruct (lookup k u) as [v|]; [reflexivity|].
  unfold top_table, top_defaults. simpl.
  repeat match goal with
         | |- context [String.eqb k ?c] => destruct (String.eqb k c)
         end; reflexivity.
Qed.

Lemma normalize_profile_idempotent (uid : string) (n1 n2 : pyval)
  (u : dict) :
  normalize_profile uid n2 (normalize_profile uid n1 u)
  = normalize_profile uid n1 u.
Proof.
  set (u' := normalize_profile uid n1 u).
  assert (L : forall k, lookup k u' = _) by
    (intro k; apply (lookup_normalize_profile uid n1 u k)).
  unfold normalize_profile at 1.
  assert (F : fill (top_defaults uid n2) u' = u').
  { apply fill_fixed. intros k Hk. unfold mem in *. rewrite L.
    unfold top_defaults in Hk. simpl in Hk.
    destruct (String.eqb k "settings"); [reflexivity|].
    destruct (lookup k u); [reflexivity|].
    unfold top_table, top_defaults. simpl.
    repeat match type of Hk with
           | context [String.eqb k ?c] => destruct (String.eqb k c)
           end; try reflexivity; discriminate. }
  rewrite F.
  assert (S : lookup "settings" u'
              = Some (PDict (fill defaults (settings_of u)))).
  { now rewrite L. }
  rewrite S. rewrite S. rewrite fill_fill.
  rewrite (set_same_value _ _ _ S).
  apply setdefault_present. unfold mem. rewrite L. simpl.
  now destruct (lookup "_positions" u).
Qed.

Section WithRuntime.
Context {RT : Runtime}.

Lemma ensure_user_defaults_dict (users : dict) (uid username : pyval)
  (u : dict) :
  lookup (py_str uid) users = Some (PDict u) ->
  _ensure_user_defaults users uid username
  = Some (set (py_str uid)
              (PDict (normalize_profile (py_str uid) username u)) users).
Proof.
  intros H. unfold _ensure_user_defaults, mem. now rewrite H, H.
Qed.

(** A user the mapping does not hold yet is created from an empty
    profile. *)
Lemma ensure_user_defaults_new (users : dict) (uid username : pyval) :
  lookup (py_str uid) users = None ->
  _ensure_user_defaults users uid username
  = Some (set (py_str uid)
              (PDict (normalize_profile (py_str uid) username []))
              (set (py_str uid) (PDict []) users)).
Proof.
  intros H. unfold _ensure_user_defaults, mem.
  now rewrite H, lookup_set_same.
Qed.

(** C5 (as amended): for every profile [u] stored under the user's key,
    [_ensure_user_defaults] succeeds and rewrites only that profile;
    every top-level key other than [settings] that was present keeps its
    value, every such key that was missing gets the default of the
    table ([username], [api_key], [api_secret], [sub_until],
    [_positions]) and no other key appears; when [settings] was a dict
    each of its keys keeps its value and exactly the missing keys get
    the default of [defaults]; when [settings] was absent or was not a
    dict it becomes the table of defaults. *)
Theorem ensure_user_defaults_fills_missing (users : dict)
  (uid username : pyval) (u : dict) :
  lookup (py_str uid) users = Some (PDict u) ->
  exists u' : dict,
    _ensure_user_defaults users uid username
    = Some (set (py_str uid) (PDict u') users)
    /\ (forall k v, k <> "settings" ->
         lookup k u = Some v -> lookup k u' = Some v)
    /\ (forall k, k <> "settings" ->
         lookup k u = None ->
         lookup k u' = lookup k (top_table (py_str uid) username))
    /\ (forall s, lookup "settings" u = Some (PDict s) ->
         exists s', lookup "settings" u' = Some (PDict s')
           /\ (forall k v, lookup k s = Some v -> lookup k s' = Some v)
           /\ (forall k, lookup k s = None ->
                lookup k s' = lookup k defaults))
    /\ ((forall s, lookup "settings" u <> Some (PDict s)) ->
        lookup "settings" u' = Some (PDict defaults)).
Proof.
  intros H.
  exists (normalize_profile (py_str uid) username u).
  split; [now apply ensure_user_defaults_dict|].
  repeat split.
  - intros k v Hk Hv. rewrite lookup_normalize_profile.
    apply String.eqb_neq in Hk. now rewrite Hk, Hv.
  - intros k Hk Hv. rewrite lookup_normalize_profile.
    apply String.eqb_neq in Hk. now rewrite Hk, Hv.
  - intros s Hs. exists (fill defaults s). repeat split.
    + rewrite lookup_normalize_profile. unfold settings_of.
      now rewrite Hs.
    + intros k v Hv. now rewrite lookup_fill, Hv.
    + intros k Hv. now rewrite lookup_fill, Hv.
  - intros Hs. rewrite lookup_normalize_profile. unfold settings_of.
    simpl. destruct (lookup "settings" u) as [[]|]; try reflexivity.
    now elim (Hs d).
Qed.

(** C6: normalisation is idempotent.  Running [_ensure_user_defaults]
    on its own result, for the same user, gives that result again; when
    the first run raises (the stored profile is not a dict) so does the
    composition. *)
Theorem ensure_user_defaults_idempotent (users : dict)
  (uid username : pyval) :
  match _ensure_user_defaults users uid username with
  | Some users' => _ensure_user_defaults users' uid username
  | None => None
  end = _ensure_user_defaults users uid username.
Proof.
  unfold _ensure_user_defaults at 1 3.
  set (k := py_str uid).
  set (users1 := if mem k users then users else set k (PDict []) users).
  destruct (lookup k users1) as [[| | | | | |u]|] eqn:E; try reflexivity.
  set (users2 := set k (PDict (normalize_profile k username u)) users1).
  assert (L : lookup k users2
              = Some (PDict (normalize_profile k username u)))
    by apply lookup_set_same.
  rewrite (ensure_user_defaults_dict _ _ _ _ L). fold k.
  rewrite normalize_profile_idempotent.
  now rewrite (set_same_value _ _ _ L).
Qed.

End WithRuntime.

(** The example of the specification: a profile whose settings hold
    only [RSI_PERIOD = 21]. *)
Example normalize_rsi_period_kept :
  let u := normalize_profile "7" PNone
             [("settings", PDict [("RSI_PERIOD", PInt 21)])] in
  lookup "RSI_PERIOD" (settings_of u) = Some (PInt 21)
  /\ lookup "USE_RSI" (settings_of u) = Some (PBool true)
  /\ lookup "username" u = Some (PStr "user_7").
Proof. repeat split. Qed.

Lemma ensure_user_defaults_fills_missing_witness :
  lookup (py_str (RT := plain_runtime) (PInt 7))
         [("7", PDict [("settings", PDict [("RSI_PERIOD", PInt 21)])])]
  = Some (PDict [("settings", PDict [("RSI_PERIOD", PInt 21)])])
  /\ exists u' : dict,
    _ensure_user_defaults (RT := plain_runtime)
      [("7", PDict [("settings", PDict [("RSI_PERIOD", PInt 21)])])]
      (PInt 7) PNone
    = Some (set "7" (PDict u')
              [("7", PDict [("settings",
                             PDict [("RSI_PERIOD", PInt 21)])])])
    /\ lookup "api_key" u' = Some (PStr "")
    /\ (exists s', lookup "settings" u' = Some (PDict s')
          /\ lookup "RSI_PERIOD" s' = Some (PInt 21)
          /\ lookup "USE_RSI" s' = Some (PBool true)).
Proof.
  split; [reflexivity|].
  destruct (ensure_user_defaults_fills_missing (RT := plain_runtime)
              [("7", PDict [("settings", PDict [("RSI_PERIOD", PInt 21)])])]
              (PInt 7) PNone
              [("settings", PDict [("RSI_PERIOD", PInt 21)])] eq_refl)
    as (u' & He & _ & Hmiss & Hset & _).
  exists u'. split; [exact He|]. split.
  - rewrite Hmiss; [reflexivity|discriminate|reflexivity].
  - destruct (Hset _ eq_refl) as (s' & Hs' & Hkeep & Hfill).
    exists s'. split; [exact Hs'|]. split.
    + now apply Hkeep.
    + now rewrite Hfill.
Defined.

(** C5 as stated fails on a profile whose [settings] is [null]: the key
    is present, and its value is replaced by the table of defaults. *)
Lemma ensure_user_defaults_overwrites_null_settings :
  lookup "settings" [("settings", PNone)] = Some PNone
  /\ exists u' : dict,
       _ensure_user_defaults (RT := plain_runtime)
         [("7", PDict [("settings", PNone)])] (PInt 7) PNone
       = Some [("7", PDict u')]
       /\ lookup "settings" u' = Some (PDict defaults).
Proof.
  split; [reflexivity|]. eexists. split; reflexivity.
Qed.

End StoreFacts.

Module LedgerFacts.
Import Py PyFacts Store.

Lemma slice_from_last {A : Type} (limit : Z) (l : list A) :
  0 < limit -> slice_from (- limit) l = lastn (Z.to_nat limit) l.
Proof.
  intros H. unfold slice_from, lastn.
  destruct (Z.ltb_spec (- limit) 0) as [_|]; [|lia].
  f_equal. lia.
Qed.

Lemma slice_from_zero {A : Type} (l : list A) : slice_from (- 0) l = l.
Proof. unfold slice_from. simpl. now destruct l. Qed.

Section WithRuntime.
Context {RT : Runtime}.

Lemma select_trades_filter (uid : string) (ts : list pyval) :
  forallb is_dict ts = true ->
  select_trades uid ts = Some (filter (owned_by uid) ts).
Proof.
  induction ts as [|t rest IH]; simpl; [reflexivity|].
  intros H. apply andb_prop in H. destruct H as [Ht Hrest].
  rewrite (IH Hrest). unfold owned_by.
  destruct t; try discriminate. reflexivity.
Qed.

(** With a positive limit the call returns the last [limit] entries of
    the user, in ledger order. *)
Lemma get_trades_positive_limit (d : disk) (uid : pyval) (limit : Z)
  (ts : list pyval) :
  trades_file d = FJson (PList ts) ->
  forallb is_dict ts = true ->
  0 < limit ->
  get_trades_for_user d uid limit
  = (Some (lastn (Z.to_nat limit) (filter (owned_by (py_str uid)) ts)), d).
Proof.
  intros Hf Hd Hl. unfold get_trades_for_user, _read_trades.
  rewrite Hf, (select_trades_filter _ _ Hd). simpl.
  now rewrite slice_from_last.
Qed.

(** With limit [0] the slice [user_trades[-0:]] is the whole list. *)
Lemma get_trades_zero_limit (d : disk) (uid : pyval) (ts : list pyval) :
  trades_file d = FJson (PList ts) ->
  forallb is_dict ts = true ->
  get_trades_for_user d uid 0
  = (Some (filter (owned_by (py_str uid)) ts), d).
Proof.
  intros Hf Hd. unfold get_trades_for_user, _read_trades.
  rewrite Hf, (select_trades_filter _ _ Hd). simpl.
  now rewrite (slice_from_zero (filter (owned_by (py_str uid)) ts)).
Qed.

(** [append_trade] puts the record last and keeps the ledger order. *)
Lemma append_trade_last (d : disk) (t : pyval) (ts : list pyval) :
  trades_file d = FJson (PList ts) ->
  option_map trades_file (append_trade d t)
  = Some (FJson (PList (ts ++ [t]))).
Proof.
  intros Hf. unfold append_trade, _read_trades. now rewrite Hf.
Qed.

End WithRuntime.

(** C9, at limit [0]: on a ledger with two records of user 7 and one of
    user 8, [get_trades_for_user(7, 0)] returns both records of user 7,
    where the last [0] records are no record at all. *)
Theorem get_trades_limit_zero_returns_all :
  let r1 := PDict [("user_id", PInt 7); ("side", PStr "Buy")] in
  let r2 := PDict [("user_id", PInt 8); ("side", PStr "Buy")] in
  let r3 := PDict [("user_id", PStr "7"); ("side", PStr "Sell")] in
  let d := {| users_file := FJson (PDict []);
              trades_file := FJson (PList [r1; r2; r3]) |} in
  fst (get_trades_for_user (RT := plain_runtime) d (PInt 7) 0)
  = Some [r1; r3]
  /\ fst (get_trades_for_user (RT := plain_runtime) d (PInt 7) 1)
     = Some [r3]
  /\ lastn 0 [r1; r3] = [].
Proof. repeat split. Qed.

End LedgerFacts.

Module NormalizerFacts.
Import Py PyFacts Core.

(** ** Sorting by the index *)

Lemma insert_row_perm (x : row) (df : frame) :
  Permutation (x :: df) (insert_row x df).
Proof.
  induction df as [|y rest IH]; simpl.
  - apply Permutation_refl.
  - destruct (Z.leb (r_t x) (r_t y)).
    + apply Permutation_refl.
    + eapply perm_trans; [apply perm_swap|]. now apply perm_skip.
Qed.

Lemma sort_index_perm (df : frame) : Permutation df (sort_index df).
Proof.
  induction df as [|x rest IH]; simpl.
  - apply perm_nil.
  - eapply perm_trans; [apply perm_skip, IH|]. apply insert_row_perm.
Qed.

Lemma insert_row_hd (x a : row) (df : frame) :
  le_t a x -> HdRel le_t a df -> HdRel le_t a (insert_row x df).
Proof.
  intros Hax Hd. destruct df as [|y rest]; simpl.
  - now constructor.
  - destruct (Z.leb (r_t x) (r_t y)); constructor; auto.
    now inversion Hd.
Qed.

Lemma insert_row_sorted (x : row) (df : frame) :
  Sorted le_t df -> Sorted le_t (insert_row x df).
Proof.
  induction 1 as [|y rest Hs IH Hd]; simpl.
  - repeat constructor.
  - destruct (Z.leb_spec (r_t x) (r_t y)) as [Hle|Hgt].
    + constructor; [now constructor|]. now constructor.
    + constructor; [exact IH|].
      apply insert_row_hd; [|exact Hd]. unfold le_t. lia.
Qed.

Lemma sort_index_sorted (df : frame) : Sorted le_t (sort_index df).
Proof.
  induction df as [|x rest IH]; simpl.
  - constructor.
  - now apply insert_row_sorted.
Qed.

Lemma le_t_trans : Relations_1.Transitive le_t.
Proof. intros a b c. unfold le_t. lia. Qed.

Lemma strongly_sorted_timestamps (df : frame) :
  StronglySorted le_t df -> StronglySorted Z.le (map r_t df).
Proof.
  induction 1 as [|x rest Hs IH Hall]; simpl; constructor; auto.
  apply Forall_map. exact Hall.
Qed.

Lemma sort_index_timestamps (df : frame) :
  StronglySorted Z.le (map r_t (sort_index df)).
Proof.
  apply strongly_sorted_timestamps, Sorted_StronglySorted.
  - exact le_t_trans.
  - apply sort_index_sorted.
Qed.

Section WithRuntime.
Context {RT : Runtime}.

(** ** The rows that survive [dropna] *)



End WithRuntime.



End NormalizerFacts.

Module IndicatorFacts.
Import Py Core.

Lemma diff_from_constant (c : float) (n : nat) :
  (c - c)%float = 0%float ->
  diff_from c (repeat c n) = repeat 0%float n.
Proof.
  intros Hc. induction n as [|n IH]; simpl; [reflexivity|].
  now rewrite Hc, IH.
Qed.

(** Once the mean equals the value that keeps coming, it stays. *)
Lemma ewm_loop_constant (factor new_wt z : float) (n : nat) :
  PrimFloat.eqb z z = true ->
  ewm_loop factor new_wt (z, 1%float) (repeat z n) = repeat z n.
Proof.
  intros Hz. induction n as [|n IH]; simpl; [reflexivity|].
  rewrite Hz. simpl. now rewrite IH.
Qed.

(** A finite value is handed to the window functions as it is. *)
Lemma prep_values_repeat (z : float) (n : nat) :
  PrimFloat.is_infinity z = false ->
  prep_values (repeat z n) = repeat z n.
Proof.
  intros Hi. unfold prep_values. rewrite map_repeat.
  unfold prep_value. now rewrite Hi.
Qed.

(** A price with [c - c = 0] is finite. *)
Lemma sub_self_zero_finite (c : float) :
  (c - c)%float = 0%float ->
  PrimFloat.eqb c c = true /\ PrimFloat.is_infinity c = false.
Proof.
  intros H. apply (f_equal Prim2SF) in H. rewrite sub_spec in H.
  unfold PrimFloat.is_infinity. rewrite !eqb_spec, abs_spec.
  destruct (Prim2SF c) as [sg|sg| |sg m e] eqn:E.
  - split; reflexivity.
  - destruct sg; vm_compute in H; discriminate.
  - vm_compute in H. discriminate.
  - split; [|reflexivity].
    unfold SFeqb, SFcompare. destruct sg.
    + rewrite Z.compare_refl, Pos.compare_refl. reflexivity.
    + rewrite Z.compare_refl, Pos.compare_refl. reflexivity.
Qed.

(** A missing first value is replaced by the first observation. *)
Lemma ewm_mean_nan_then_constant (alpha z : float) (n : nat) :
  PrimFloat.eqb z z = true ->
  PrimFloat.is_infinity z = false ->
  ewm_mean alpha (nan :: repeat z n) = nan :: repeat z n.
Proof.
  intros Hz Hi. unfold ewm_mean.
  change (prep_values (nan :: repeat z n))
    with (nan :: prep_values (repeat z n)).
  rewrite (prep_values_repeat z n Hi). f_equal.
  destruct n as [|n]; simpl; [reflexivity|].
  rewrite Hz. simpl. now rewrite ewm_loop_constant.
Qed.

Lemma zip_with_repeat (f : float -> float -> float) (x y : float)
  (n : nat) :
  zip_with f (repeat x n) (repeat y n) = repeat (f x y) n.
Proof. induction n as [|n IH]; simpl; [reflexivity|]. now rewrite IH. Qed.

Lemma rsi_fallback_constant (c : float) (n : nat) (period : Z) :
  (c - c)%float = 0%float ->
  0 < period ->
  rsi_fallback (repeat c n) period = Some (repeat nan n).
Proof.
  intros Hc Hp. unfold rsi_fallback.
  destruct (Z.leb_spec period 0) as [|_]; [lia|]. f_equal.
  destruct n as [|n]; [reflexivity|].
  cbn [repeat diff map]. rewrite (diff_from_constant _ _ Hc).
  rewrite !map_repeat.
  change (clip_lower0 nan) with nan.
  change (clip_lower0 0%float) with 0%float.
  change (- clip_upper0 nan)%float with nan.
  change (- clip_upper0 0)%float with (-0)%float.
  rewrite !ewm_mean_nan_then_constant by reflexivity.
  cbn [zip_with map]. rewrite zip_with_repeat, map_repeat.
  reflexivity.
Qed.

(** C8 (as amended): for every constant series of a finite price [c]
    (one with [c - c = 0]) and every positive period, the computation
    of [rsi_series] without the [ta] package, or after its call has
    raised, returns a series, and its value at every index is [nan]:
    the two smoothed averages are zero and their ratio is undefined. *)
Theorem rsi_series_constant_is_nan (c : float) (n : nat) (period : Z) :
  (c - c)%float = 0%float ->
  0 < period ->
  rsi_series None (repeat c n) period = Some (repeat nan n)
  /\ forall rsi : ta_rsi,
       rsi (repeat c n) period = None ->
       rsi_series (Some rsi) (repeat c n) period = Some (repeat nan n).
Proof.
  intros Hc Hp. split.
  - now apply rsi_fallback_constant.
  - intros rsi Hr. unfold rsi_series. rewrite Hr.
    now apply rsi_fallback_constant.
Qed.

Lemma rsi_series_constant_is_nan_witness :
  (100 - 100)%float = 0%float
  /\ 0 < 14
  /\ rsi_series None (repeat 100%float 16) 14 = Some (repeat nan 16).
Proof.
  split; [reflexivity|]. split; [lia|].
  apply (rsi_series_constant_is_nan 100%float 16 14); [reflexivity|lia].
Defined.

(** C8 as stated fails: a series of sixteen prices of 100 with period 14
    gives [nan] at every index, and [nan] is not 50. *)
Lemma rsi_series_constant_not_50 :
  rsi_series None (repeat 100%float 16) 14 = Some (repeat nan 16)
  /\ nth 1 (repeat nan 16) 0%float = nan
  /\ PrimFloat.eqb nan 50 = false.
Proof. repeat split. Qed.

(** The other boundary readings: a rising series reads 100 (the ratio
    is infinite), a falling one reads 0. *)
Example rsi_series_rising_falling :
  rsi_series None [1; 2; 3; 4; 5; 6]%float 2
  = Some [nan; 100; 100; 100; 100; 100]%float
  /\ rsi_series None [6; 5; 4; 3; 2]%float 2
     = Some [nan; 0; 0; 0; 0]%float.
Proof. split; reflexivity. Qed.

End IndicatorFacts.

Module AuthFacts.
Import Py PyFacts Core.

(** ** Updates of the mapping *)

Lemma lookup_set_field (k k' f : string) (v : pyval) (us : dict) :
  lookup k (set_field k' f v us) =
  if String.eqb k k'
  then match lookup k' us with
       | Some (PDict u) => Some (PDict (set f v u))
       | o => o
       end
  else lookup k us.
Proof.
  unfold set_field.
  destruct (String.eqb_spec k k') as [->|Hne].
  - destruct (lookup k' us) as [[]|] eqn:E; rewrite ?E; auto.
    apply lookup_set_same.
  - destruct (lookup k' us) as [[]|]; auto.
    now apply lookup_set_other.
Qed.

Lemma set_field_same (k f : string) (v : pyval) (us u : dict) :
  lookup k us = Some (PDict u) -> lookup f u = Some v ->
  set_field k f v us = us.
Proof.
  intros E L. unfold set_field. rewrite E.
  rewrite (set_same_value _ _ _ L). now apply set_same_value.
Qed.

Lemma keys_set (k : string) (v : pyval) (d : dict) :
  mem k d = true -> keys (set k v d) = keys d.
Proof.
  unfold mem, keys. induction d as [|[k' v'] rest IH]; simpl.
  - discriminate.
  - destruct (String.eqb k k'); simpl; intros H; [reflexivity|].
    now rewrite IH.
Qed.

Lemma keys_set_field (k f : string) (v : pyval) (us : dict) :
  keys (set_field k f v us) = keys us.
Proof.
  unfold set_field. destruct (lookup k us) as [[]|] eqn:E; auto.
  apply keys_set. unfold mem. now rewrite E.
Qed.

(** ** The relation [keeps_auth] *)

Lemma keeps_auth_refl (v : option pyval) : keeps_auth v v.
Proof.
  destruct v as [[]|]; simpl; auto.
  exists d. split; [reflexivity|]. split; [auto|].
  intros s Hs. exists s. auto.
Qed.

Lemma keeps_auth_trans (a b c : option pyval) :
  keeps_auth a b -> keeps_auth b c -> keeps_auth a c.
Proof.
  destruct a as [[| | | | | |u]|]; simpl; try (intros ->; auto).
  intros (u' & -> & Hf & Hs). simpl.
  intros (u'' & -> & Hf' & Hs').
  exists u''. split; [reflexivity|]. split.
  - intros f Hne. now rewrite Hf', Hf.
  - intros s E. destruct (Hs s E) as (s' & E' & Hk).
    destruct (Hs' s' E') as (s'' & E'' & Hk').
    exists s''. split; [exact E''|].
    intros f Hne. now rewrite Hk', Hk.
Qed.

Lemma keeps_auth_counted (k : string) (n : Z) (us us' : dict) :
  keeps_auth (lookup k us) (lookup k us') ->
  counted k n us -> counted k n us'.
Proof.
  intros H (u & s & E & Hn & Hs). rewrite E in H. simpl in H.
  destruct H as (u' & E' & Hf & Hset).
  destruct (Hset s Hs) as (s' & Hs' & _).
  exists u', s'. split; [exact E'|]. split; [|exact Hs'].
  unfold get in *. rewrite Hf; [exact Hn|discriminate].
Qed.

Lemma keeps_auth_disabled (k : string) (us us' : dict) :
  keeps_auth (lookup k us) (lookup k us') ->
  disabled k us -> disabled k us'.
Proof.
  intros H (u & s & E & Hs & Hd). rewrite E in H. simpl in H.
  destruct H as (u' & E' & _ & Hset).
  destruct (Hset s Hs) as (s' & Hs' & Hk).
  exists u', s'. split; [exact E'|]. split; [exact Hs'|].
  rewrite Hk; [exact Hd|discriminate].
Qed.

(** ** What a step may change *)

Lemma frames_refl (own : option string) (st : state) : frames own st st.
Proof.
  split; [auto|]. split; [reflexivity|]. intros. apply keeps_auth_refl.
Qed.

Lemma frames_trans (own : option string) (a b c : state) :
  frames own a b -> frames own b c -> frames own a c.
Proof.
  intros (S1 & K1 & F1) (S2 & K2 & F2). split; [auto|]. split.
  - now rewrite K2.
  - intros k Hk. eapply keeps_auth_trans; [apply F1|apply F2]; auto.
Qed.

Lemma frames_same_users (own : option string) (st st' : state) :
  users st' = users st -> disk st' = disk st -> frames own st st'.
Proof.
  intros Hu Hd. unfold frames, synced. rewrite Hu, Hd.
  split; [auto|]. split; [reflexivity|]. intros. apply keeps_auth_refl.
Qed.

Lemma frames_add_log (own : option string) (l : log_entry) (st : state) :
  frames own st (add_log l st).
Proof. now apply frames_same_users. Qed.

Lemma frames_add_call (own : option string) (c : call) (st : state) :
  frames own st (add_call c st).
Proof. now apply frames_same_users. Qed.

Lemma synced_save_users (st : state) : synced (save_users st).
Proof. reflexivity. Qed.

(** Writing a field of the profile under [k'] and saving. *)
Lemma frames_set_field_saved (k' f : string) (v : pyval) (st : state) :
  frames (Some k') st
    (save_users (with_users (set_field k' f v (users st)) st)).
Proof.
  split; [intros _; apply synced_save_users|]. split.
  - simpl. apply keys_set_field.
  - intros k Hk. simpl. rewrite lookup_set_field.
    destruct (String.eqb_spec k k') as [->|]; [congruence|].
    apply keeps_auth_refl.
Qed.

Lemma frames_weaken (own : option string) (st st' : state) :
  frames None st st' -> frames own st st'.
Proof.
  intros (S1 & K1 & F1). split; [auto|]. split; [auto|].
  intros k _. apply F1. discriminate.
Qed.

(** Writing [settings] twice under [ka], the second time with
    [TESTNET] changed only, and saving. *)
Lemma frames_fix_testnet (ka : string) (u s s' : dict) (st st1 : state)
  (l : log_entry) :
  lookup ka (users st) = Some (PDict u) ->
  (forall s0, lookup "settings" u = Some (PDict s0) -> s0 = s) ->
  (forall f, f <> "TESTNET" -> lookup f s' = lookup f s) ->
  frames None st
    (add_log l
       (save_users
          (with_users
             (set_field ka "settings" (PDict s')
                (set_field ka "settings" (PDict s) (users st)))
             st1))).
Proof.
  intros E Hs0 Hs'. split; [intros _; reflexivity|]. split.
  - simpl. now rewrite !keys_set_field.
  - intros k _. simpl. rewrite !lookup_set_field.
    destruct (String.eqb_spec k ka) as [->|]; [|apply keeps_auth_refl].
    rewrite String.eqb_refl, E. simpl.
    eexists. split; [reflexivity|]. split.
    + intros f Hf. now rewrite !lookup_set_other.
    + intros s0 L0. rewrite (Hs0 s0 L0).
      eexists. split; [apply lookup_set_same|]. exact Hs'.
Qed.

Section WithRuntime.
Context {RT : Runtime}.

(** The probe keeps every profile: it writes [settings.TESTNET] only. *)
Lemma try_alternate_frames (e : environment) (api_key api_secret : pyval)
  (testnet : bool) (uid : Z) (st : state) :
  frames None st
    (snd (try_alternate_env_and_fix_user e api_key api_secret testnet
            uid st)).
Proof.
  unfold try_alternate_env_and_fix_user.
  set (c := make_client e api_key api_secret (negb testnet)).
  destruct (get_balance_usdt e _ c) as [bal|]; simpl;
    [|now apply frames_same_users].
  destruct (is_balance bal); simpl; [|now apply frames_same_users].
  set (ka := str_of_Z uid).
  destruct (lookup ka (users st)) as [[| | | | | |u]|] eqn:E; simpl;
    try (now apply frames_same_users).
  unfold get.
  destruct (lookup "settings" u) as [sv|] eqn:L.
  - destruct sv as [| | | | | |s]; simpl;
      try (apply frames_same_users; simpl; [|reflexivity];
           apply set_field_same with (u := u); assumption).
    apply frames_fix_testnet with (u := u); [exact E| |].
    + intros s0 Hs0. congruence.
    + intros f Hf. now apply lookup_set_other.
  - simpl. apply frames_fix_testnet with (u := u); [exact E| |].
    + intros s0 Hs0. congruence.
    + intros f Hf. now apply (lookup_set_other f "TESTNET" _ []).
Qed.

End WithRuntime.

Lemma frames_set_saved (k : string) (v v0 : pyval) (st : state) :
  lookup k (users st) = Some v0 ->
  frames (Some k) st (save_users (with_users (set k v (users st)) st)).
Proof.
  intros E. split; [intros _; reflexivity|]. split.
  - simpl. apply keys_set. unfold mem. now rewrite E.
  - intros k0 Hk. simpl. rewrite lookup_set_other; [|congruence].
    apply keeps_auth_refl.
Qed.

Section WithRuntime.
Context {RT : Runtime}.

Lemma on_auth_failure_frames (e : environment) (k : string) (uid : Z)
  (api_key api_secret : pyval) (testnet : bool) (st : state) :
  frames (Some k) st
    (result_state (on_auth_failure e k uid api_key api_secret testnet st)).
Proof.
  unfold on_auth_failure.
  destruct (lookup k (users st)) as [[| | | | | |u]|] eqn:E; simpl;
    try apply frames_refl.
  destruct (py_add1 _) as [count|]; simpl; [|apply frames_refl].
  set (st1 := add_log _ (save_users _)).
  assert (F1 : frames (Some k) st st1).
  { eapply frames_trans; [apply frames_set_field_saved|].
    apply frames_add_log. }
  set (st2 := if is_one count then _ else st1).
  assert (F2 : frames (Some k) st st2).
  { unfold st2. destruct (is_one count); [|exact F1].
    eapply frames_trans; [exact F1|].
    apply frames_weaken, try_alternate_frames. }
  destruct (at_least_three count); [|exact F2].
  destruct (lookup k (users st2)) as [[| | | | | |u']|] eqn:E2; simpl;
    try exact F2.
  destruct (disable_auth u') as [u''|]; simpl; [|exact F2].
  eapply frames_trans; [exact F2|].
  eapply frames_trans; [eapply frames_set_saved; exact E2|].
  apply frames_add_log.
Qed.

(** An iteration keeps the file in step with the mapping, keeps the
    keys, and keeps the profiles of the other users. *)
Lemma run_user_frames (e : environment) (k : string) (st : state) :
  frames (Some k) st (result_state (run_user e k st)).
Proof.
  unfold run_user.
  destruct (gate e k (users st)) as [| |[msg|]|uid key secret testnet];
    simpl; try apply frames_refl.
  - apply frames_add_log.
  - set (c := make_client e key secret testnet).
    assert (F0 : frames (Some k) st (add_call c (log_client e c st))).
    { apply frames_same_users; unfold log_client;
        destruct (client_module e); reflexivity. }
    destruct (get_balance_usdt e _ c) as [resp|]; simpl; [|exact F0].
    eapply frames_trans; [exact F0|].
    destruct (is_auth_failure resp).
    + exact (on_auth_failure_frames e k uid key secret testnet
               (add_call c (log_client e c st))).
    + exact (frames_set_field_saved k "_auth_failures" (PInt 0)
               (add_call c (log_client e c st))).
Qed.

Lemma run_users_frames (e : environment) (ks : list string) :
  forall st : state,
  (synced st -> synced (result_state (run_users e ks st)))
  /\ keys (users (result_state (run_users e ks st))) = keys (users st)
  /\ (forall k, ~ In k ks ->
      keeps_auth (lookup k (users st))
        (lookup k (users (result_state (run_users e ks st))))).
Proof.
  induction ks as [|k' rest IH]; intros st; simpl.
  - split; [auto|]. split; [reflexivity|]. intros. apply keeps_auth_refl.
  - destruct (run_user_frames e k' st) as (S1 & K1 & F1).
    destruct (run_user e k' st) as [st'|st'] eqn:R; simpl in *.
    + destruct (IH st') as (S2 & K2 & F2).
      split; [auto|]. split; [now rewrite K2|].
      intros k Hk. eapply keeps_auth_trans.
      * apply F1. intros H. injection H as ->. tauto.
      * apply F2. tauto.
    + split; [auto|]. split; [auto|].
      intros k Hk. apply F1. intros H. injection H as ->. tauto.
Qed.

(** ** The iteration of the user itself *)

Lemma gate_proceed_dict (e : environment) (k : string) (us : dict)
  (uid : Z) (key secret : pyval) (testnet : bool) :
  gate e k us = GateProceed uid key secret testnet ->
  exists u, lookup k us = Some (PDict u).
Proof.
  unfold gate. destruct (int_of_str k); [|discriminate].
  destruct (lookup k us) as [[| | | | | |u]|]; try discriminate.
  intros _. now exists u.
Qed.

(** What [classified] says about [run_user]. *)
Lemma classified_run_user (e : environment) (k : string) (st : state)
  (b : bool) :
  classified e k st = Some b ->
  exists uid key secret testnet,
    gate e k (users st) = GateProceed uid key secret testnet
    /\ run_user e k st =
       let c := make_client e key secret testnet in
       let st1 := add_call c (log_client e c st) in
       if b then on_auth_failure e k uid key secret testnet st1
       else on_success k st1.
Proof.
  unfold classified, run_user.
  destruct (gate e k (users st)) as [| |?|uid key secret testnet];
    try discriminate.
  destruct (get_balance_usdt e _ _) as [resp|]; [|discriminate].
  intros H. injection H as <-.
  now exists uid, key, secret, testnet.
Qed.

Lemma users_after_client (e : environment) (c : call) (st : state) :
  users (add_call c (log_client e c st)) = users st.
Proof. unfold log_client. now destruct (client_module e). Qed.

(** A response that is not an authentication failure: the counter is
    written as 0 and saved. *)
Lemma success_step (e : environment) (k : string) (st : state) :
  classified e k st = Some false ->
  exists st' u,
    run_user e k st = Done st'
    /\ synced st'
    /\ lookup k (users st) = Some (PDict u)
    /\ users st'
       = set k (PDict (set "_auth_failures" (PInt 0) u)) (users st).
Proof.
  intros H. destruct (classified_run_user _ _ _ _ H)
    as (uid & key & secret & testnet & G & R).
  destruct (gate_proceed_dict _ _ _ _ _ _ _ G) as (u & E).
  rewrite R. cbv zeta. unfold on_success.
  eexists. exists u. split; [reflexivity|]. split; [reflexivity|].
  split; [exact E|].
  cbn [users save_users with_users]. rewrite users_after_client.
  unfold set_field. now rewrite E.
Qed.

(** A response classified as an authentication failure, on a profile
    with [n] failures counted: the iteration ends normally, [n + 1] is
    counted and saved, and from the third failure on the profile is
    disabled. *)
Lemma failure_step (e : environment) (k : string) (n : Z) (st : state) :
  counted k n (users st) ->
  classified e k st = Some true ->
  exists st',
    run_user e k st = Done st'
    /\ synced st'
    /\ counted k (n + 1) (users st')
    /\ (3 <= n + 1 -> disabled k (users st')).
Proof.
  intros (u & s & E & Hn & Hs) H.
  destruct (classified_run_user _ _ _ _ H)
    as (uid & key & secret & testnet & G & R).
  rewrite R. clear R. cbv zeta.
  set (c := make_client e key secret testnet).
  set (st0 := add_call c (log_client e c st)).
  assert (U0 : users st0 = users st) by apply users_after_client.
  unfold on_auth_failure. rewrite U0, E, Hn. cbn [py_add1].
  set (st1 := add_log _ (save_users _)).
  assert (S1 : synced st1) by reflexivity.
  assert (C1 : counted k (n + 1) (users st1)).
  { exists (set "_auth_failures" (PInt (n + 1)) u), s.
    unfold st1. simpl. rewrite lookup_set_field, String.eqb_refl, E.
    split; [reflexivity|]. split.
    - unfold get. now rewrite lookup_set_same.
    - rewrite lookup_set_other; [exact Hs|discriminate]. }
  set (st2 := if is_one (PInt (n + 1)) then _ else st1).
  assert (F2 : frames None st1 st2).
  { unfold st2. destruct (is_one _).
    - apply try_alternate_frames.
    - apply frames_refl. }
  destruct F2 as (S2 & _ & K2).
  assert (C2 : counted k (n + 1) (users st2)).
  { eapply keeps_auth_counted; [|exact C1]. apply K2. discriminate. }
  cbn [at_least_three].
  destruct (Z.leb_spec 3 (n + 1)) as [Hge|Hlt].
  - destruct C2 as (u2 & s2 & E2 & Hn2 & Hs2).
    rewrite E2. unfold disable_auth. rewrite Hs2.
    eexists. split; [reflexivity|]. split; [reflexivity|].
    assert (L : lookup k (set k
                   (PDict (set "settings"
                             (PDict (set "DISABLED_AUTH" (PBool true) s2))
                             u2)) (users st2))
                = Some (PDict (set "settings"
                             (PDict (set "DISABLED_AUTH" (PBool true) s2))
                             u2))) by apply lookup_set_same.
    split.
    + eexists. eexists. simpl. split; [exact L|]. split.
      * unfold get in *.
        rewrite lookup_set_other; [exact Hn2|discriminate].
      * apply lookup_set_same.
    + intros _. eexists. eexists. simpl. split; [exact L|]. split.
      * apply lookup_set_same.
      * apply lookup_set_same.
  - exists st2. split; [reflexivity|]. split; [auto|].
    split; [exact C2|]. lia.
Qed.

(** ** A whole cycle *)

Lemma run_users_app (e : environment) (pre rest : list string) :
  forall st : state,
  run_users e (pre ++ rest) st =
  match run_users e pre st with
  | Done st' => run_users e rest st'
  | Raise st' => Raise st'
  end.
Proof.
  induction pre as [|k pre IH]; intros st; simpl; [reflexivity|].
  destruct (run_user e k st); [apply IH|reflexivity].
Qed.

Lemma state_at_split (e : environment) (k : string) (ks : list string) :
  forall (st stk : state),
  NoDup ks ->
  state_at e ks k st = Some stk ->
  exists pre post,
    ks = (pre ++ k :: post)%list
    /\ ~ In k pre /\ ~ In k post
    /\ run_users e pre st = Done stk.
Proof.
  induction ks as [|k' rest IH]; intros st stk Hnd; simpl; [discriminate|].
  inversion Hnd as [|? ? Hnin Hnd']; subst.
  destruct (String.eqb_spec k k') as [->|Hne].
  - intros H. injection H as ->.
    exists [], rest. simpl. auto.
  - destruct (run_user e k' st) as [st'|] eqn:R; [|discriminate].
    intros H. destruct (IH _ _ Hnd' H) as (pre & post & -> & Hp & Hq & Hr).
    exists (k' :: pre), post. simpl. rewrite R.
    split; [reflexivity|]. split; [|auto].
    intros [->|]; tauto.
Qed.

Lemma synced_initial (us : dict) (d : Store.disk) :
  Store.users_file d = Store.FJson (PDict us) ->
  synced (initial_state us (ensure_trades d)).
Proof.
  unfold synced, ensure_trades. simpl.
  destruct (Store.trades_file d); auto.
Qed.

(** The cycle up to the iteration of [k], and what is left of it. *)
Lemma cycle_reaches (e : environment) (d : Store.disk) (us : dict)
  (k : string) (stk : state) :
  Store.users_file d = Store.FJson (PDict us) ->
  NoDup (keys us) ->
  state_at e (keys us) k (initial_state us (ensure_trades d)) = Some stk ->
  synced stk
  /\ keys (users stk) = keys us
  /\ keeps_auth (lookup k us) (lookup k (users stk))
  /\ exists post,
       ~ In k post
       /\ run_once e d = match run_user e k stk with
                         | Done st' => run_users e post st'
                         | Raise st' => Raise st'
                         end.
Proof.
  intros Hd Hnd Hat.
  destruct (state_at_split _ _ _ _ _ Hnd Hat)
    as (pre & post & Hks & Hpre & Hpost & Hrun).
  destruct (run_users_frames e pre (initial_state us (ensure_trades d)))
    as (S & K & F).
  rewrite Hrun in S, K, F. simpl in S, K, F.
  split; [apply S, synced_initial, Hd|]. split; [exact K|].
  split; [now apply F|].
  exists post. split; [exact Hpost|].
  unfold run_once. rewrite Hd, Hks, run_users_app, Hrun. reflexivity.
Qed.

(** The files after the cycle, from the state the iteration of [k]
    ended in. *)
Lemma cycle_finishes (e : environment) (k : string) (post : list string)
  (st' : state) :
  ~ In k post ->
  synced st' ->
  let fin := result_state (run_users e post st') in
  Store.users_file (disk fin) = Store.FJson (PDict (users fin))
  /\ keys (users fin) = keys (users st')
  /\ keeps_auth (lookup k (users st')) (lookup k (users fin)).
Proof.
  intros Hpost S fin.
  destruct (run_users_frames e post st') as (S' & K' & F').
  split; [now apply S'|]. split; [exact K'|]. now apply F'.
Qed.

(** A cycle that classifies the response for [k] as an authentication
    failure, on files where [n] failures are counted for [k]. *)
Lemma cycle_failure (e : environment) (d : Store.disk) (us : dict)
  (k : string) (n : Z) :
  Store.users_file d = Store.FJson (PDict us) ->
  NoDup (keys us) ->
  counted k n us ->
  cycle_classifies e d k = Some true ->
  exists us',
    Store.users_file (after_cycle e d) = Store.FJson (PDict us')
    /\ NoDup (keys us')
    /\ counted k (n + 1) us'
    /\ (3 <= n + 1 -> disabled k us').
Proof.
  intros Hd Hnd Hc Hcl. unfold cycle_classifies in Hcl. rewrite Hd in Hcl.
  destruct (state_at e (keys us) k _) as [stk|] eqn:Hat; [|discriminate].
  destruct (cycle_reaches _ _ _ _ _ Hd Hnd Hat)
    as (S & K & F & post & Hpost & Hrun).
  assert (Ck : counted k n (users stk))
    by (eapply keeps_auth_counted; eauto).
  destruct (failure_step _ _ _ _ Ck Hcl) as (st' & R & S' & C' & D').
  destruct (run_user_frames e k stk) as (_ & K' & _).
  rewrite R in Hrun, K'. simpl in K'.
  destruct (cycle_finishes e k post st' Hpost S') as (Sf & Kf & Ff).
  unfold after_cycle. rewrite Hrun.
  eexists. split; [exact Sf|]. split; [|split].
  - rewrite Kf, K', K. exact Hnd.
  - eapply keeps_auth_counted; eauto.
  - intros H3. eapply keeps_auth_disabled; eauto.
Qed.

(** A cycle that does not classify the response for [k] as an
    authentication failure leaves the counter at 0 in the file. *)
Lemma cycle_success (e : environment) (d : Store.disk) (us : dict)
  (k : string) :
  Store.users_file d = Store.FJson (PDict us) ->
  NoDup (keys us) ->
  cycle_classifies e d k = Some false ->
  stored_field (after_cycle e d) k "_auth_failures" = Some (PInt 0).
Proof.
  intros Hd Hnd Hcl. unfold cycle_classifies in Hcl. rewrite Hd in Hcl.
  destruct (state_at e (keys us) k _) as [stk|] eqn:Hat; [|discriminate].
  destruct (cycle_reaches _ _ _ _ _ Hd Hnd Hat)
    as (S & K & F & post & Hpost & Hrun).
  destruct (success_step _ _ _ Hcl) as (st' & u & R & S' & E & U').
  rewrite R in Hrun.
  destruct (cycle_finishes e k post st' Hpost S') as (Sf & Kf & Ff).
  unfold stored_field, stored_profile, after_cycle.
  rewrite Hrun, Sf.
  rewrite U', lookup_set_same in Ff. simpl in Ff.
  destruct Ff as (u' & -> & Hf & _).
  rewrite Hf; [apply lookup_set_same|discriminate].
Qed.

Lemma disabled_stored (d : Store.disk) (us : dict) (k : string) :
  Store.users_file d = Store.FJson (PDict us) ->
  disabled k us ->
  stored_disabled d k = Some (PBool true).
Proof.
  intros Hd (u & s & E & Hs & Hdis).
  unfold stored_disabled, stored_profile. now rewrite Hd, E, Hs.
Qed.

(** C1: on files where the profile under [k] counts no authentication
    failure and is not disabled, three cycles in a row that each
    classify the balance response for [k] as an authentication failure
    leave [settings.DISABLED_AUTH = true] in [users.json]; and a cycle
    that classifies the response as a success, as the first or as the
    second of these cycles, leaves [_auth_failures = 0] there. *)
Theorem three_auth_failures_disable (e1 e2 e3 : environment)
  (d0 : Store.disk) (us u s : dict) (k : string) :
  Store.users_file d0 = Store.FJson (PDict us) ->
  NoDup (keys us) ->
  lookup k us = Some (PDict u) ->
  get "_auth_failures" (PInt 0) u = PInt 0 ->
  lookup "settings" u = Some (PDict s) ->
  get "DISABLED_AUTH" (PBool false) s = PBool false ->
  let d1 := after_cycle e1 d0 in
  let d2 := after_cycle e2 d1 in
  let d3 := after_cycle e3 d2 in
  (cycle_classifies e1 d0 k = Some true ->
   cycle_classifies e2 d1 k = Some true ->
   cycle_classifies e3 d2 k = Some true ->
   stored_disabled d3 k = Some (PBool true))
  /\ (cycle_classifies e1 d0 k = Some false ->
      stored_field d1 k "_auth_failures" = Some (PInt 0))
  /\ (cycle_classifies e1 d0 k = Some true ->
      cycle_classifies e2 d1 k = Some false ->
      stored_field d2 k "_auth_failures" = Some (PInt 0)).
Proof.
  intros Hd Hnd E Hn Hs _ d1 d2 d3.
  assert (C0 : counted k 0 us) by (exists u, s; auto).
  split; [|split].
  - intros H1 H2 H3.
    destruct (cycle_failure _ _ _ _ _ Hd Hnd C0 H1)
      as (us1 & Hd1 & Hnd1 & C1 & _).
    destruct (cycle_failure _ _ _ _ _ Hd1 Hnd1 C1 H2)
      as (us2 & Hd2 & Hnd2 & C2 & _).
    destruct (cycle_failure _ _ _ _ _ Hd2 Hnd2 C2 H3)
      as (us3 & Hd3 & _ & _ & D3).
    apply (disabled_stored _ _ _ Hd3). apply D3. lia.
  - intros H1. now apply (cycle_success _ _ _ _ Hd Hnd).
  - intros H1 H2.
    destruct (cycle_failure _ _ _ _ _ Hd Hnd C0 H1)
      as (us1 & Hd1 & Hnd1 & _).
    now apply (cycle_success _ _ _ _ Hd1 Hnd1).
Qed.

(** ** Responses that are not authentication failures *)

(** The envelope of a time-out or of a connection failure is an
    authentication failure only when the text of the exception holds
    one of the markers. *)
Lemma timeout_classification (secret msg : string) :
  is_auth_failure (builtin_get_balance_usdt (PStr secret) (HttpRaise msg))
  = contains "unauthor" (lower msg)
    || contains "invalid api" (lower msg)
    || contains "invalid apikey" (lower msg).
Proof.
  unfold builtin_get_balance_usdt, _private_request, balance_of_response.
  cbn [mem lookup String.eqb Ascii.eqb Bool.eqb orb].
  unfold is_auth_failure, get. cbn [lookup String.eqb Ascii.eqb Bool.eqb].
  unfold py_or. cbn [truthy Z.eqb negb].
  destruct msg as [|c m]; reflexivity.
Qed.

(** C10: a cycle in which the balance response for the user under [k]
    is not classified as an authentication failure leaves
    [_auth_failures = 0] in [users.json], whatever was counted before;
    and the envelope the built-in client makes of a time-out or of a
    connection failure (code -1) is such a response whenever the text
    of the exception holds none of the three markers. *)
Theorem other_response_resets_counter (e : environment) (d : Store.disk)
  (us : dict) (k : string) :
  Store.users_file d = Store.FJson (PDict us) ->
  NoDup (keys us) ->
  cycle_classifies e d k = Some false ->
  stored_field (after_cycle e d) k "_auth_failures" = Some (PInt 0)
  /\ forall secret msg : string,
       contains "unauthor" (lower msg) = false ->
       contains "invalid api" (lower msg) = false ->
       contains "invalid apikey" (lower msg) = false ->
       is_auth_failure
         (builtin_get_balance_usdt (PStr secret) (HttpRaise msg)) = false.
Proof.
  intros Hd Hnd H. split.
  - now apply (cycle_success _ _ _ _ Hd Hnd).
  - intros secret msg H1 H2 H3.
    now rewrite timeout_classification, H1, H2, H3.
Qed.

(** ** The probe of the other environment *)




(** The probe raised, or what it returned is no balance: nothing is
    written. *)
Lemma try_alternate_fails (e : environment) (key secret : pyval)
  (testnet : bool) (uid : Z) (st : state) :
  match get_balance_usdt e (calls st)
          (make_client e key secret (negb testnet)) with
  | Raised => True
  | Returned bal => is_balance bal = false
  end ->
  let r := try_alternate_env_and_fix_user e key secret testnet uid st in
  fst r = false /\ users (snd r) = users st /\ disk (snd r) = disk st.
Proof.
  unfold try_alternate_env_and_fix_user. cbn [calls add_log add_call].
  destruct (get_balance_usdt e _ _) as [bal|].
  - intros ->. repeat split.
  - intros _. repeat split.
Qed.


(** ** Users the cycle skips *)

(** A skipped user: no call is made and neither the mapping nor the
    files change. *)
Lemma skipped_user_untouched (e : environment) (k : string) (st : state)
  (msg : option log_entry) :
  gate e k (users st) = GateSkip msg ->
  exists st',
    run_user e k st = Done st'
    /\ users st' = users st /\ disk st' = disk st
    /\ calls st' = calls st.
Proof.
  intros G. unfold run_user. rewrite G.
  destruct msg; eexists; repeat split.
Qed.

(** The three tests of the loop: a set [DISABLED_AUTH], a [sub_until]
    that reads as a date before now, an empty key or secret. *)
Lemma gate_skips (e : environment) (k : string) (us u s : dict) (uid : Z) :
  int_of_str k = Some uid ->
  lookup k us = Some (PDict u) ->
  py_or (get_none "settings" u) (PDict []) = PDict s ->
  truthy (get "DISABLED_AUTH" (PBool false) s) = true
  \/ subscription_expired e k (get_none "sub_until" u) = true
  \/ truthy (get "api_key" (PStr "") u) = false
  \/ truthy (get "api_secret" (PStr "") u) = false ->
  exists msg, gate e k us = GateSkip msg.
Proof.
  intros Hk E Hs H. unfold gate. rewrite Hk, E, Hs.
  destruct (truthy (get "DISABLED_AUTH" (PBool false) s));
    [eexists; reflexivity|].
  destruct (subscription_expired e k _); [eexists; reflexivity|].
  destruct H as [H|[H|[H|H]]]; try discriminate.
  - unfold decode_api_key at 1, py_or at 1. rewrite H. simpl.
    eexists; reflexivity.
  - unfold decode_api_key at 2, py_or at 2. rewrite H. simpl.
    rewrite orb_true_r. eexists; reflexivity.
Qed.

(** A profile without [sub_until], or with [sub_until] null, passes
    the test on the subscription. *)
Lemma no_sub_until_not_expired (e : environment) (k : string) (u : dict) :
  truthy (get_none "sub_until" u) = false ->
  subscription_expired e k (get_none "sub_until" u) = false.
Proof. intros H. unfold subscription_expired. now rewrite H. Qed.

(** ** Exceptions in the loop *)

(** C4 (as amended): an exception raised in the iteration of one user
    is not caught inside [run_once]: the cycle ends there, in the state
    the iteration had reached, and no later user is examined; the
    [loop] entry point catches it around the whole cycle and logs it.
    Only a key that is not an integer is passed over inside the loop. *)
Theorem exception_ends_the_cycle (e : environment) (d : Store.disk)
  (us : dict) (pre post : list string) (k : string) (stk st' : state) :
  Store.users_file d = Store.FJson (PDict us) ->
  keys us = (pre ++ k :: post)%list ->
  run_users e pre (initial_state us (ensure_trades d)) = Done stk ->
  run_user e k stk = Raise st' ->
  run_once e d = Raise st'
  /\ loop_cycle e d = (disk st', (log st' ++ [LogCrashed])%list)
  /\ forall k0 st0, int_of_str k0 = None -> run_user e k0 st0 = Done st0.
Proof.
  intros Hd Hks Hpre Hk.
  assert (R : run_once e d = Raise st').
  { unfold run_once. rewrite Hd, Hks, run_users_app, Hpre. simpl.
    now rewrite Hk. }
  split; [exact R|]. split.
  - unfold loop_cycle. now rewrite R.
  - intros k0 st0 H0. unfold run_user, gate. now rewrite H0.
Qed.

End WithRuntime.

End AuthFacts.

Module AuthCases.
Import Py PyFacts Core Scenario AuthFacts.

#[local] Existing Instance plain_runtime.

Lemma three_auth_failures_disable_witness :
  let d0 := files [("7", profile (PInt 0) PNone true)] in
  let d1 := after_cycle rejecting d0 in
  let d2 := after_cycle rejecting d1 in
  let d3 := after_cycle rejecting d2 in
  cycle_classifies rejecting d0 "7" = Some true
  /\ cycle_classifies rejecting d1 "7" = Some true
  /\ cycle_classifies rejecting d2 "7" = Some true
  /\ stored_field d2 "7" "_auth_failures" = Some (PInt 2)
  /\ stored_disabled d2 "7" = Some (PBool false)
  /\ stored_disabled d3 "7" = Some (PBool true).
Proof.
  intros d0 d1 d2 d3.
  assert (H1 : cycle_classifies rejecting d0 "7" = Some true)
    by reflexivity.
  assert (H2 : cycle_classifies rejecting d1 "7" = Some true)
    by reflexivity.
  assert (H3 : cycle_classifies rejecting d2 "7" = Some true)
    by reflexivity.
  repeat (split; [reflexivity|]).
  assert (Hnd : NoDup (keys [("7", profile (PInt 0) PNone true)])).
  { constructor; [simpl; tauto|constructor]. }
  exact (proj1 (three_auth_failures_disable rejecting rejecting rejecting
                  d0 _ _ _ "7" eq_refl Hnd eq_refl eq_refl eq_refl
                  eq_refl) H1 H2 H3).
Defined.

Lemma other_response_resets_counter_witness :
  let d := files [("7", profile (PInt 2) PNone true)] in
  stored_field d "7" "_auth_failures" = Some (PInt 2)
  /\ cycle_classifies timing_out d "7" = Some false
  /\ stored_field (after_cycle timing_out d) "7" "_auth_failures"
     = Some (PInt 0).
Proof.
  intros d.
  assert (H : cycle_classifies timing_out d "7" = Some false)
    by reflexivity.
  split; [reflexivity|]. split; [exact H|].
  assert (Hnd : NoDup (keys [("7", profile (PInt 2) PNone true)])).
  { constructor; [simpl; tauto|constructor]. }
  exact (proj1 (other_response_resets_counter timing_out d _ "7"
                  eq_refl Hnd H)).
Defined.


(** A probe that raises is swallowed: the iteration ends normally and
    only the counter is written. *)
Example probe_exception_is_swallowed :
  let us := [("7", profile (PInt 0) PNone true)] in
  exists st',
    run_user raising_local "7" (initial_state us (files us)) = Done st'
    /\ users st' = [("7", profile (PInt 1) PNone true)]
    /\ log st' = [LogLocalClient true; LogAuthFailure 7 (PInt 1);
                  LogTryAlternate 7 true false; LogAlternateFailed 7].
Proof. eexists. repeat split. Qed.

(** So is an exception after the probe has answered: with [settings]
    null in the file the balance found on production cannot be
    recorded, the [TypeError] is caught, and the flag is not written. *)
Example probe_type_error_is_swallowed :
  let u := [("api_key", PStr "key"); ("api_secret", PStr "secret");
            ("settings", PNone)] in
  let us := [("7", PDict u)] in
  exists st',
    run_user production_only "7" (initial_state us (files us)) = Done st'
    /\ users st' = [("7", PDict (u ++ [("_auth_failures", PInt 1)]))]
    /\ log st' = [LogAuthFailure 7 (PInt 1); LogTryAlternate 7 true false;
                  LogAlternateFailed 7].
Proof. eexists. repeat split. Qed.


(** A key that is not an integer is passed over and the next user is
    examined. *)
Example bad_key_is_passed_over :
  let us := [("admin", PNone); ("7", profile (PInt 0) PNone true)] in
  exists st',
    run_once accepting (files us) = Done st'
    /\ calls st' = [{| c_local := false; c_key := PStr "key";
                       c_secret := PStr "secret"; c_testnet := true |}].
Proof. eexists. repeat split. Qed.

(** C3, on a user without subscription: the profile the store creates
    has [sub_until = null]; with credentials set, [run_once] does not
    skip it: [get_balance_usdt] is called and [_auth_failures] is
    written to [users.json].  The same holds without the key
    [sub_until]. *)
Theorem run_once_keeps_user_without_subscription :
  let settings := PDict [("TESTNET", PBool true);
                         ("DISABLED_AUTH", PBool false)] in
  let with_null := [("username", PStr "user_7"); ("api_key", PStr "key");
                    ("api_secret", PStr "secret"); ("sub_until", PNone);
                    ("settings", settings); ("_positions", PDict [])] in
  let without := [("api_key", PStr "key"); ("api_secret", PStr "secret");
                  ("settings", settings)] in
  let on_testnet := {| c_local := false; c_key := PStr "key";
                       c_secret := PStr "secret"; c_testnet := true |} in
  let r1 := run_once accepting (files [("7", PDict with_null)]) in
  let r2 := run_once accepting (files [("7", PDict without)]) in
  calls (result_state r1) = [on_testnet]
  /\ stored_field (files [("7", PDict with_null)]) "7" "_auth_failures"
     = None
  /\ stored_field (disk (result_state r1)) "7" "_auth_failures"
     = Some (PInt 0)
  /\ calls (result_state r2) = [on_testnet]
  /\ stored_field (disk (result_state r2)) "7" "_auth_failures"
     = Some (PInt 0).
Proof. repeat split. Qed.

Lemma exception_ends_the_cycle_witness :
  let us := [("3", profile PNone PNone true);
             ("7", profile (PInt 0) PNone true)] in
  let on_testnet := {| c_local := false; c_key := PStr "key";
                       c_secret := PStr "secret"; c_testnet := true |} in
  let st' := {| users := us; disk := files us; calls := [on_testnet];
                log := [] |} in
  run_user rejecting "3" (initial_state us (files us)) = Raise st'
  /\ run_once rejecting (files us) = Raise st'
  /\ loop_cycle rejecting (files us) = (files us, [LogCrashed]).
Proof.
  intros us on_testnet st'.
  assert (H : run_user rejecting "3" (initial_state us (files us))
              = Raise st') by reflexivity.
  split; [exact H|].
  destruct (exception_ends_the_cycle rejecting (files us) us [] ["7"] "3"
              (initial_state us (files us)) st' eq_refl eq_refl eq_refl H)
    as (R & L & _).
  split; [exact R|exact L].
Defined.

(** C4 as stated fails: the profile stored under "1" is null, reading
    it raises, and the user under "7", who alone would have had the
    balance checked, is not examined in that cycle. *)
Lemma null_profile_stops_later_user :
  let on_testnet := {| c_local := false; c_key := PStr "key";
                       c_secret := PStr "secret"; c_testnet := true |} in
  let alone := [("7", profile (PInt 0) PNone true)] in
  let both := ("1", PNone) :: alone in
  calls (result_state (run_once accepting (files alone))) = [on_testnet]
  /\ run_once accepting (files both)
     = Raise (initial_state both (files both))
  /\ calls (result_state (run_once accepting (files both))) = [].
Proof. repeat split. Qed.

End AuthCases.

(* ================================================================== *)
(** * Further properties of the code *)
(* ================================================================== *)

Module LedgerExtra.
Import Py PyFacts Store LedgerFacts.

Section WithRuntime.
Context {RT : Runtime}.

(** X1: a record appended with [append_trade] is the newest record of
    its owner: on a ledger of objects, after appending the object [t],
    [get_trades_for_user(uid, limit)] with a positive limit returns the
    last [limit] of the owner's earlier records followed by [t] when
    [t] is owned by [uid], and what it returned before for any other
    user; [users.json] is not touched. *)
Theorem append_then_get_trades (d : disk) (ts : list pyval) (t : pyval)
  (uid : pyval) (limit : Z) :
  trades_file d = FJson (PList ts) ->
  forallb is_dict ts = true ->
  is_dict t = true ->
  0 < limit ->
  exists d',
    append_trade d t = Some d'
    /\ users_file d' = users_file d
    /\ fst (get_trades_for_user d' uid limit)
       = Some (lastn (Z.to_nat limit)
                 (filter (owned_by (py_str uid)) ts
                  ++ (if owned_by (py_str uid) t then [t] else []))%list)
    /\ (owned_by (py_str uid) t = false ->
        fst (get_trades_for_user d' uid limit)
        = fst (get_trades_for_user d uid limit)).
Proof.
  intros Hf Hd Ht Hl.
  assert (Hd' : forallb is_dict (ts ++ [t]) = true).
  { rewrite forallb_app, Hd. simpl. now rewrite Ht. }
  assert (G : forall d0, trades_file d0 = FJson (PList (ts ++ [t])) ->
              fst (get_trades_for_user d0 uid limit)
              = Some (lastn (Z.to_nat limit)
                        (filter (owned_by (py_str uid)) ts
                         ++ (if owned_by (py_str uid) t then [t] else []))
                        %list)).
  { intros d0 H0.
    rewrite (get_trades_positive_limit d0 uid limit _ H0 Hd' Hl).
    simpl. now rewrite filter_app. }
  unfold append_trade, _read_trades. rewrite Hf.
  eexists. split; [reflexivity|]. split; [reflexivity|]. split.
  - now apply G.
  - intros Hno. rewrite G by reflexivity.
    rewrite (get_trades_positive_limit d uid limit _ Hf Hd Hl).
    simpl. now rewrite Hno, app_nil_r.
Qed.

(** X2: with a positive limit [get_trades_for_user] returns a suffix of
    the user's records, of length [min(limit, number of records)]. *)
Theorem get_trades_is_bounded_suffix (d : disk) (ts : list pyval)
  (uid : pyval) (limit : Z) :
  trades_file d = FJson (PList ts) ->
  forallb is_dict ts = true ->
  0 < limit ->
  exists older found,
    fst (get_trades_for_user d uid limit) = Some found
    /\ filter (owned_by (py_str uid)) ts = (older ++ found)%list
    /\ List.length found
       = Nat.min (Z.to_nat limit)
           (List.length (filter (owned_by (py_str uid)) ts)).
Proof.
  intros Hf Hd Hl.
  rewrite (get_trades_positive_limit d uid limit _ Hf Hd Hl). simpl.
  set (l := filter (owned_by (py_str uid)) ts).
  exists (firstn (List.length l - Z.to_nat limit) l), (lastn (Z.to_nat limit) l).
  split; [reflexivity|]. split.
  - unfold lastn. now rewrite firstn_skipn.
  - unfold lastn. rewrite length_skipn. lia.
Qed.

(** X3: a negative limit does not fail and does not return the newest
    records: [user_trades[-limit:]] then drops the first [-limit]
    records of the user and returns all the others. *)
Theorem get_trades_negative_limit (d : disk) (ts : list pyval)
  (uid : pyval) (limit : Z) :
  trades_file d = FJson (PList ts) ->
  forallb is_dict ts = true ->
  limit < 0 ->
  fst (get_trades_for_user d uid limit)
  = Some (skipn (Z.to_nat (- limit)) (filter (owned_by (py_str uid)) ts)).
Proof.
  intros Hf Hd Hl. unfold get_trades_for_user, _read_trades.
  rewrite Hf, (select_trades_filter _ _ Hd). simpl. f_equal.
  unfold slice_from.
  destruct (Z.ltb_spec (- limit) 0) as [|_]; [lia|].
  set (l := filter _ ts).
  destruct (Z.le_gt_cases (- limit) (Z.of_nat (List.length l))) as [H|H].
  - now rewrite Z.min_l.
  - rewrite Z.min_r by lia. rewrite Nat2Z.id.
    rewrite !skipn_all2; [reflexivity|lia|lia].
Qed.

(** X4: [get_trades_for_user] never fails on a ledger file that is
    missing or does not decode: it returns no record; the missing file
    is created (with [users.json], when that is missing too), the
    unreadable one is left as it is. *)
Theorem get_trades_unreadable_ledger (uf : file) (uid : pyval) (limit : Z) :
  let missing := {| users_file := uf; trades_file := FMissing |} in
  let corrupt := {| users_file := uf; trades_file := FCorrupt |} in
  get_trades_for_user missing uid limit = (Some [], _ensure_files missing)
  /\ trades_file (_ensure_files missing) = FJson (PList [])
  /\ get_trades_for_user corrupt uid limit = (Some [], corrupt).
Proof.
  intros missing corrupt.
  assert (E : slice_from (- limit) (@nil pyval) = []).
  { unfold slice_from. apply skipn_nil. }
  unfold get_trades_for_user, _read_trades. simpl. rewrite E.
  repeat split.
Qed.

(** X5: the two [append_trade] functions, of [db_json.py] and of
    [trading_core.py], write the same file on a ledger that holds an
    array, and differ everywhere else: on a file that does not decode
    the first replaces it by the one record and the second leaves it
    (the record is lost); on a ledger that holds an object the first
    raises and the second replaces it by the one record; on a missing
    ledger both write the one record, the first creating [users.json]
    as well. *)
Theorem append_trade_two_versions (uf : file) (ts : list pyval)
  (obj : dict) (t : pyval) :
  let disk_of f := {| users_file := uf; trades_file := f |} in
  append_trade (disk_of (FJson (PList ts))) t
  = Some (CoreMore.append_trade (disk_of (FJson (PList ts))) t)
  /\ append_trade (disk_of FCorrupt) t
     = Some (disk_of (FJson (PList [t])))
  /\ CoreMore.append_trade (disk_of FCorrupt) t = disk_of FCorrupt
  /\ append_trade (disk_of (FJson (PDict obj))) t = None
  /\ CoreMore.append_trade (disk_of (FJson (PDict obj))) t
     = disk_of (FJson (PList [t]))
  /\ option_map trades_file (append_trade (disk_of FMissing) t)
     = Some (trades_file (CoreMore.append_trade (disk_of FMissing) t))
  /\ users_file (CoreMore.append_trade (disk_of FMissing) t) = uf
  /\ option_map users_file (append_trade (disk_of FMissing) t)
     = Some (users_file (_ensure_files (disk_of FMissing))).
Proof. repeat split. Qed.

End WithRuntime.

Lemma append_then_get_trades_witness :
  let r1 := PDict [("user_id", PInt 7); ("side", PStr "Buy")] in
  let r2 := PDict [("user_id", PInt 8); ("side", PStr "Buy")] in
  let r3 := PDict [("user_id", PStr "7"); ("side", PStr "Sell")] in
  let d := {| users_file := FJson (PDict []);
              trades_file := FJson (PList [r1; r2]) |} in
  exists d',
    append_trade d r3 = Some d'
    /\ fst (get_trades_for_user (RT := plain_runtime) d' (PInt 7) 5)
       = Some [r1; r3]
    /\ fst (get_trades_for_user (RT := plain_runtime) d' (PInt 7) 1)
       = Some [r3].
Proof.
  intros r1 r2 r3 d.
  destruct (append_then_get_trades (RT := plain_runtime) d [r1; r2] r3
              (PInt 7) 5 eq_refl eq_refl eq_refl eq_refl)
    as (d' & A & _ & G & _).
  exists d'. split; [exact A|]. split; [exact G|].
  unfold append_trade in A. simpl in A. injection A as <-. reflexivity.
Defined.

Lemma get_trades_is_bounded_suffix_witness :
  let r n := PDict [("user_id", PInt 7); ("n", PInt n)] in
  let d := {| users_file := FJson (PDict []);
              trades_file := FJson (PList [r 1; r 2; r 3; r 4; r 5]) |} in
  exists older found,
    fst (get_trades_for_user (RT := plain_runtime) d (PInt 7) 2)
    = Some found
    /\ [r 1; r 2; r 3; r 4; r 5] = (older ++ found)%list
    /\ List.length found = 2%nat.
Proof.
  intros r d.
  destruct (get_trades_is_bounded_suffix (RT := plain_runtime) d
              [r 1; r 2; r 3; r 4; r 5] (PInt 7) 2
              eq_refl eq_refl eq_refl)
    as (older & found & G & S & L).
  exists older, found. auto.
Defined.

Lemma get_trades_negative_limit_witness :
  let r n := PDict [("user_id", PInt 7); ("n", PInt n)] in
  let d := {| users_file := FJson (PDict []);
              trades_file := FJson (PList [r 1; r 2; r 3]) |} in
  fst (get_trades_for_user (RT := plain_runtime) d (PInt 7) (-1))
  = Some [r 2; r 3].
Proof.
  intros r d.
  exact (get_trades_negative_limit (RT := plain_runtime) d
           [r 1; r 2; r 3] (PInt 7) (-1) eq_refl eq_refl eq_refl).
Defined.

End LedgerExtra.

Module ProfileExtra.
Import Py PyFacts Store StoreFacts StoreOps.

(** A profile with every top-level key and every setting of the table. *)
Lemma normalize_profile_complete (uid : string) (n : pyval) (u s : dict) :
  (forall k, mem k (top_table uid n) = true -> mem k u = true) ->
  lookup "settings" u = Some (PDict s) ->
  (forall k, mem k defaults = true -> mem k s = true) ->
  normalize_profile uid n u = u.
Proof.
  intros Htop Hs Hdef. unfold normalize_profile.
  assert (F : fill (top_defaults uid n) u = u).
  { apply fill_fixed. intros k Hk. apply Htop. unfold top_table, mem in *.
    simpl in *.
    repeat match type of Hk with
           | context [String.eqb k ?c] => destruct (String.eqb k c)
           end; try reflexivity; discriminate. }
  rewrite F, Hs, Hs, (fill_fixed defaults s Hdef).
  rewrite (set_same_value _ _ _ Hs).
  apply setdefault_present, Htop. reflexivity.
Qed.

Lemma mem_normalize_profile (uid : string) (n : pyval) (u : dict)
  (k : string) :
  mem k (top_table uid n) = true \/ k = "settings" ->
  mem k (normalize_profile uid n u) = true.
Proof.
  intros H. unfold mem. rewrite lookup_normalize_profile.
  destruct (String.eqb_spec k "settings"); [reflexivity|].
  destruct (lookup k u); [reflexivity|].
  destruct H as [H|H]; [exact H|contradiction].
Qed.

Lemma settings_normalize_profile (uid : string) (n : pyval) (u : dict) :
  lookup "settings" (normalize_profile uid n u)
  = Some (PDict (fill defaults (settings_of u))).
Proof. now rewrite lookup_normalize_profile. Qed.

Section WithRuntime.
Context {RT : Runtime}.

(** The load and the normalisation that start every operation, on a
    file that reads as an object whose profile for [uid] is a dict or
    is missing. *)
Lemma load_normalized_ok (d : disk) (uid n : pyval) (us : dict) :
  fst (load_users d) = PDict us ->
  lookup (py_str uid) us = None
  \/ (exists u, lookup (py_str uid) us = Some (PDict u)) ->
  exists u0 us1,
    load_normalized d uid n
    = (Some (set (py_str uid)
               (PDict (normalize_profile (py_str uid) n u0)) us1),
       _ensure_files d)
    /\ (forall k', k' <> py_str uid -> lookup k' us1 = lookup k' us)
    /\ (lookup (py_str uid) us = None /\ u0 = []
        \/ lookup (py_str uid) us = Some (PDict u0)).
Proof.
  intros Hl H. unfold load_normalized.
  destruct (load_users d) as [v d1] eqn:E. simpl in Hl. subst v.
  assert (d1 = _ensure_files d) by (unfold load_users in E; congruence).
  subst d1. destruct H as [H|[u H]].
  - exists [], (set (py_str uid) (PDict []) us).
    rewrite (ensure_user_defaults_new _ _ _ H). split; [reflexivity|].
    split; [|now left].
    intros k' Hk. now apply lookup_set_other.
  - exists u, us. rewrite (ensure_user_defaults_dict _ _ _ _ H).
    split; [reflexivity|]. split; [auto|now right].
Qed.

(** X6: when [users.json] holds an object in which the user is absent
    or is an object, [get_user] returns, and leaves in [users.json], a
    complete profile: the six top-level keys are there and [settings]
    is a dict holding every key of the table of defaults; a user the
    file did not know is thereby created, and the other users stay as
    they were. *)
Theorem get_user_gives_complete_profile (d : disk) (uid : pyval)
  (us : dict) :
  fst (load_users d) = PDict us ->
  lookup (py_str uid) us = None
  \/ (exists u, lookup (py_str uid) us = Some (PDict u)) ->
  exists u' s' us',
    fst (get_user d uid) = Some (PDict u')
    /\ users_file (snd (get_user d uid)) = FJson (PDict us')
    /\ lookup (py_str uid) us' = Some (PDict u')
    /\ (forall k, k <> py_str uid -> lookup k us' = lookup k us)
    /\ (forall k, In k ["username"; "api_key"; "api_secret"; "sub_until";
                        "settings"; "_positions"] -> mem k u' = true)
    /\ lookup "settings" u' = Some (PDict s')
    /\ (forall k, mem k defaults = true -> mem k s' = true).
Proof.
  intros Hl H.
  destruct (load_normalized_ok d uid PNone us Hl H)
    as (u0 & us1 & E & Hother & _).
  unfold get_user. rewrite E. simpl.
  eexists. eexists. eexists. split.
  { unfold get_none, get. rewrite lookup_set_same. reflexivity. }
  split; [reflexivity|]. split; [apply lookup_set_same|]. split.
  { intros k Hk. rewrite lookup_set_other; auto. }
  split; [|split].
  - intros k Hk. apply mem_normalize_profile. simpl in Hk.
    destruct Hk as [<-|[<-|[<-|[<-|[<-|[<-|[]]]]]]]; auto.
  - apply settings_normalize_profile.
  - intros k Hk. now apply mem_fill_table.
Qed.

(** On a stored profile that is complete [get_user] changes nothing
    and returns it. *)
Lemma get_user_on_complete (d : disk) (uid : pyval) (us u s : dict) :
  users_file d = FJson (PDict us) ->
  lookup (py_str uid) us = Some (PDict u) ->
  (forall k, mem k (top_table (py_str uid) PNone) = true ->
             mem k u = true) ->
  lookup "settings" u = Some (PDict s) ->
  (forall k, mem k defaults = true -> mem k s = true) ->
  fst (get_user d uid) = Some (PDict u)
  /\ users_file (snd (get_user d uid)) = FJson (PDict us).
Proof.
  intros Hd E Htop Hs Hdef.
  unfold get_user, load_normalized, load_users, _ensure_files.
  rewrite Hd. cbn [users_file fst snd].
  rewrite (ensure_user_defaults_dict _ _ _ _ E).
  rewrite (normalize_profile_complete _ _ _ _ Htop Hs Hdef).
  rewrite (set_same_value _ _ _ E). cbn [fst snd save_users users_file].
  unfold get_none, get. now rewrite E.
Qed.

Lemma mem_set_mono (k k' : string) (v : pyval) (d : dict) :
  mem k d = true -> mem k (set k' v d) = true.
Proof.
  unfold mem. rewrite lookup_set.
  destruct (String.eqb k k'); [reflexivity|auto].
Qed.

(** X7: [update_setting] round trip, when [users.json] holds an object
    in which the user is absent or is an object: it returns the
    settings [get_user] would have returned with [key] set to [value]
    and nothing else changed, a key outside the table of defaults being
    accepted like any other; [get_user] afterwards returns the profile
    with exactly these settings. *)
Theorem update_setting_round_trip (d : disk) (uid : pyval) (key : string)
  (value : pyval) (us : dict) :
  fst (load_users d) = PDict us ->
  lookup (py_str uid) us = None
  \/ (exists u, lookup (py_str uid) us = Some (PDict u)) ->
  exists u0 s0 d',
    fst (get_user d uid) = Some (PDict u0)
    /\ lookup "settings" u0 = Some (PDict s0)
    /\ update_setting d uid key value = Some (PDict (set key value s0), d')
    /\ lookup key (set key value s0) = Some value
    /\ (forall k, k <> key -> lookup k (set key value s0) = lookup k s0)
    /\ fst (get_user d' uid)
       = Some (PDict (set "settings" (PDict (set key value s0)) u0)).
Proof.
  intros Hl H.
  destruct (load_normalized_ok d uid PNone us Hl H)
    as (u0 & us1 & E & _ & _).
  set (k := py_str uid) in *.
  set (np := normalize_profile k PNone u0) in *.
  set (s0 := fill defaults (settings_of u0)).
  assert (Hs0 : lookup "settings" np = Some (PDict s0))
    by apply settings_normalize_profile.
  assert (Lk : lookup k (set k (PDict np) us1) = Some (PDict np))
    by apply lookup_set_same.
  exists np, s0. eexists. split; [|split; [exact Hs0|]].
  { unfold get_user. rewrite E. simpl. unfold get_none, get.
    fold k. now rewrite Lk. }
  split.
  { unfold update_setting. rewrite E. fold k. rewrite Lk, Hs0.
    reflexivity. }
  split; [apply lookup_set_same|]. split.
  { intros k0 Hk0. now apply lookup_set_other. }
  unfold set_profile_field. rewrite Lk.
  eapply proj1, get_user_on_complete with (s := set key value s0).
  - reflexivity.
  - fold k. apply lookup_set_same.
  - intros k0 Hk0. apply mem_set_mono. fold k in Hk0.
    apply mem_normalize_profile. now left.
  - apply lookup_set_same.
  - intros k0 Hk0. apply mem_set_mono. now apply mem_fill_table.
Qed.

Lemma lookup_set_profile_field (k k' f : string) (v : pyval) (us : dict) :
  lookup k (set_profile_field k' f v us) =
  if String.eqb k k'
  then match lookup k' us with
       | Some (PDict u) => Some (PDict (set f v u))
       | o => o
       end
  else lookup k us.
Proof. exact (AuthFacts.lookup_set_field k k' f v us). Qed.

Lemma filled_settings_truthy (s : dict) :
  truthy (PDict (fill defaults s)) = true.
Proof.
  assert (H : mem "USE_RSI" (fill defaults s) = true)
    by now apply mem_fill_table.
  destruct (fill defaults s); [discriminate|reflexivity].
Qed.

(** X8: [set_api_keys] stores the key and the secret with the white
    space around them removed, and a key or a secret that is blank is
    stored as the empty text: in the next cycle [run_once] then skips
    the user before any request is made. *)
Theorem set_api_keys_strips_and_blank_is_skipped (d : disk) (uid : pyval)
  (api_key api_secret : string) (us : dict) (e : Core.environment) :
  fst (load_users d) = PDict us ->
  lookup (py_str uid) us = None
  \/ (exists u, lookup (py_str uid) us = Some (PDict u)) ->
  exists d' us' u',
    set_api_keys d uid api_key api_secret = Some d'
    /\ users_file d' = FJson (PDict us')
    /\ lookup (py_str uid) us' = Some (PDict u')
    /\ lookup "api_key" u' = Some (PStr (strip api_key))
    /\ lookup "api_secret" u' = Some (PStr (strip api_secret))
    /\ (strip api_key = "" \/ strip api_secret = "" ->
        forall n, int_of_str (py_str uid) = Some n ->
        exists msg, Core.gate e (py_str uid) us' = Core.GateSkip msg).
Proof.
  intros Hl H.
  destruct (load_normalized_ok d uid PNone us Hl H)
    as (u0 & us1 & E & _ & _).
  set (k := py_str uid) in *.
  set (np := normalize_profile k PNone u0) in *.
  unfold set_api_keys. rewrite E. fold k.
  eexists. eexists. eexists. split; [reflexivity|].
  split; [reflexivity|].
  assert (L : lookup k
                (set_profile_field k "api_secret" (PStr (strip api_secret))
                   (set_profile_field k "api_key" (PStr (strip api_key))
                      (set k (PDict np) us1)))
              = Some (PDict (set "api_secret" (PStr (strip api_secret))
                               (set "api_key" (PStr (strip api_key)) np)))).
  { rewrite !lookup_set_profile_field, String.eqb_refl, lookup_set_same.
    reflexivity. }
  split; [exact L|]. split; [|split].
  - rewrite lookup_set_other by discriminate. apply lookup_set_same.
  - apply lookup_set_same.
  - intros Hblank n Hn.
    eapply AuthFacts.gate_skips with (s := fill defaults (settings_of u0));
      [exact Hn|exact L| |].
    + unfold get_none, get. rewrite !lookup_set_other by discriminate.
      unfold np. rewrite settings_normalize_profile.
      unfold py_or. now rewrite filled_settings_truthy.
    + right. right. unfold get.
      rewrite lookup_set_same.
      rewrite lookup_set_other by discriminate. rewrite lookup_set_same.
      destruct Hblank as [->| ->]; simpl; auto.
Qed.

(** X9: asking whether a user the file does not know is subscribed
    answers no, and writes that user, with the default profile, into
    [users.json]. *)
Theorem is_subscribed_creates_unknown_user (d : disk) (uid : pyval)
  (now : Z) (us : dict) :
  fst (load_users d) = PDict us ->
  lookup (py_str uid) us = None ->
  exists us',
    fst (is_subscribed d uid now) = Some false
    /\ users_file (snd (is_subscribed d uid now)) = FJson (PDict us')
    /\ lookup (py_str uid) us'
       = Some (PDict (normalize_profile (py_str uid) PNone [])).
Proof.
  intros Hl Hnone.
  destruct (load_normalized_ok d uid PNone us Hl (or_introl Hnone))
    as (u0 & us1 & E & _ & [[_ ->]|Hsome]); [|congruence].
  assert (Hsub : get_none "sub_until"
                   (normalize_profile (py_str uid) PNone []) = PNone).
  { unfold get_none, get. now rewrite lookup_normalize_profile. }
  unfold is_subscribed, get_user. rewrite E.
  cbn [fst snd]. unfold get_none at 1, get at 1. rewrite lookup_set_same.
  rewrite Hsub. cbn [truthy negb]. rewrite orb_true_r.
  eexists. split; [reflexivity|]. split; [reflexivity|].
  apply lookup_set_same.
Qed.

(** X10: the two tests of the subscription agree in one direction: a
    user [run_once] skips because [sub_until] reads as a date before
    now is a user for whom [is_subscribed], asked at the same instant,
    answers no. *)
Theorem expired_in_run_once_is_not_subscribed (d : disk) (uid : pyval)
  (us u : dict) (e : Core.environment) :
  fst (load_users d) = PDict us ->
  lookup (py_str uid) us = Some (PDict u) ->
  Core.subscription_expired e (py_str uid) (get_none "sub_until" u) = true ->
  fst (is_subscribed d uid (Core.utcnow e (py_str uid))) = Some false.
Proof.
  intros Hl Hu Hexp.
  destruct (load_normalized_ok d uid PNone us Hl
              (or_intror (ex_intro _ u Hu)))
    as (u0 & us1 & E & _ & [[Hn _]|Hsome]); [congruence|].
  assert (u0 = u) by congruence. subst u0.
  assert (G : get_none (py_str uid)
                (set (py_str uid)
                   (PDict (normalize_profile (py_str uid) PNone u)) us1)
              = PDict (normalize_profile (py_str uid) PNone u)).
  { unfold get_none, get. now rewrite lookup_set_same. }
  unfold is_subscribed, get_user. rewrite E.
  cbn [fst snd]. rewrite G.
  unfold Core.subscription_expired in Hexp.
  apply andb_prop in Hexp. destruct Hexp as [Ht Hp].
  assert (Hsub : get_none "sub_until"
                   (normalize_profile (py_str uid) PNone u)
                 = get_none "sub_until" u).
  { unfold get_none, get in *. rewrite lookup_normalize_profile. simpl.
    destruct (lookup "sub_until" u); [reflexivity|discriminate]. }
  rewrite Hsub, Ht.
  assert (Hnp : truthy (PDict (normalize_profile (py_str uid) PNone u))
                = true).
  { assert (M : mem "settings"
                  (normalize_profile (py_str uid) PNone u) = true)
      by (apply mem_normalize_profile; now right).
    destruct (normalize_profile (py_str uid) PNone u);
      [discriminate|reflexivity]. }
  rewrite Hnp. cbn [negb orb].
  destruct (get_none "sub_until" u) as [| | | |s| |]; try reflexivity.
  simpl in Hp. destruct (fromisoformat s) as [[t|t o]|]; try reflexivity.
  f_equal. apply Z.ltb_lt in Hp. apply Z.ltb_ge. lia.
Qed.

(** X11: [set_subscription] and [is_subscribed] round trip: when the
    date written reads back as the same instant, [is_subscribed] at the
    instant [later] answers whether [later] is before the instant
    [now + days]; so a subscription of zero or fewer days is never
    active afterwards. *)
Theorem set_subscription_round_trip (isoformat : Z -> string) (d : disk)
  (uid : pyval) (days now later : Z) (us : dict) :
  fst (load_users d) = PDict us ->
  lookup (py_str uid) us = None
  \/ (exists u, lookup (py_str uid) us = Some (PDict u)) ->
  fromisoformat (isoformat (now + days * 86400000000))
  = Some (Naive (now + days * 86400000000)) ->
  isoformat (now + days * 86400000000) <> "" ->
  exists d',
    set_subscription isoformat d uid days now = Some d'
    /\ fst (is_subscribed d' uid later)
       = Some (Z.ltb later (now + days * 86400000000))
    /\ (days <= 0 -> now <= later ->
        fst (is_subscribed d' uid later) = Some false).
Proof.
  intros Hl H Hiso Hne.
  destruct (load_normalized_ok d uid PNone us Hl H)
    as (u0 & us1 & E & _ & _).
  set (k := py_str uid) in *.
  set (np := normalize_profile k PNone u0) in *.
  set (t := now + days * 86400000000) in *.
  unfold set_subscription. rewrite E. fold k t.
  eexists. split; [reflexivity|].
  set (u' := set "sub_until" (PStr (isoformat t)) np).
  assert (Hs' : lookup "settings" u'
                = Some (PDict (fill defaults (settings_of u0)))).
  { unfold u'. rewrite lookup_set_other by discriminate.
    apply settings_normalize_profile. }
  set (d0 := save_users _ _).
  assert (G : fst (get_user d0 uid) = Some (PDict u')).
  { unfold d0, set_profile_field. rewrite lookup_set_same.
    eapply proj1, get_user_on_complete
      with (s := fill defaults (settings_of u0)).
    - reflexivity.
    - fold k. apply lookup_set_same.
    - intros k0 Hk0. unfold u'. apply mem_set_mono. fold k in Hk0.
      apply mem_normalize_profile. now left.
    - exact Hs'.
    - intros k0 Hk0. now apply mem_fill_table. }
  assert (R : fst (is_subscribed d0 uid later) = Some (Z.ltb later t)).
  { unfold is_subscribed.
    destruct (get_user d0 uid) as [r d2]. simpl in G. subst r. cbn [fst].
    assert (Hsub : get_none "sub_until" u' = PStr (isoformat t)).
    { unfold get_none, get, u'. now rewrite lookup_set_same. }
    rewrite Hsub.
    assert (Hu' : truthy (PDict u') = true).
    { assert (M : mem "settings" u' = true)
        by (unfold mem; now rewrite Hs').
      destruct u'; [discriminate|reflexivity]. }
    rewrite Hu'. cbn [truthy negb orb].
    apply String.eqb_neq in Hne. rewrite Hne. cbn [negb].
    now rewrite Hiso. }
  split; [exact R|].
  intros Hd Hn. rewrite R. f_equal. apply Z.ltb_ge. unfold t. nia.
Qed.

End WithRuntime.

Lemma get_user_gives_complete_profile_witness :
  let d := {| users_file := FMissing; trades_file := FMissing |} in
  exists u' s' us',
    fst (get_user (RT := plain_runtime) d (PInt 7)) = Some (PDict u')
    /\ users_file (snd (get_user (RT := plain_runtime) d (PInt 7)))
       = FJson (PDict us')
    /\ lookup "7" us' = Some (PDict u')
    /\ lookup "username" u' = Some (PStr "user_7")
    /\ lookup "settings" u' = Some (PDict s')
    /\ mem "DISABLED_AUTH" s' = true.
Proof.
  intros d.
  destruct (get_user_gives_complete_profile (RT := plain_runtime) d
              (PInt 7) [] eq_refl (or_introl eq_refl))
    as (u' & s' & us' & G & F & L & _ & _ & S & M).
  exists u', s', us'. split; [exact G|]. split; [exact F|].
  split; [exact L|]. split; [|split; [exact S|now apply M]].
  unfold get_user in G. simpl in G. injection G as <-. reflexivity.
Defined.

Lemma update_setting_round_trip_witness :
  let d := {| users_file := FJson (PDict [("7", PDict [])]);
              trades_file := FJson (PList []) |} in
  exists u0 s0 d',
    fst (get_user (RT := plain_runtime) d (PInt 7)) = Some (PDict u0)
    /\ lookup "settings" u0 = Some (PDict s0)
    /\ update_setting (RT := plain_runtime) d (PInt 7) "RSI_PERIOD" (PInt 21)
       = Some (PDict (set "RSI_PERIOD" (PInt 21) s0), d')
    /\ lookup "RSI_PERIOD" (set "RSI_PERIOD" (PInt 21) s0) = Some (PInt 21)
    /\ fst (get_user (RT := plain_runtime) d' (PInt 7))
       = Some (PDict (set "settings"
                        (PDict (set "RSI_PERIOD" (PInt 21) s0)) u0)).
Proof.
  intros d.
  destruct (update_setting_round_trip (RT := plain_runtime) d (PInt 7)
              "RSI_PERIOD" (PInt 21) [("7", PDict [])] eq_refl
              (or_intror (ex_intro _ [] eq_refl)))
    as (u0 & s0 & d' & G & S & U & V & _ & G').
  exists u0, s0, d'. auto.
Defined.

Lemma set_api_keys_strips_and_blank_is_skipped_witness :
  let d := {| users_file := FJson (PDict [("7", PDict [])]);
              trades_file := FJson (PList []) |} in
  exists d' us' u',
    set_api_keys (RT := plain_runtime) d (PInt 7) "  key " "   " = Some d'
    /\ users_file d' = FJson (PDict us')
    /\ lookup "7" us' = Some (PDict u')
    /\ lookup "api_key" u' = Some (PStr "key")
    /\ lookup "api_secret" u' = Some (PStr "")
    /\ exists msg,
         Core.gate (RT := plain_runtime) Scenario.accepting "7" us'
         = Core.GateSkip msg.
Proof.
  intros d.
  destruct (set_api_keys_strips_and_blank_is_skipped (RT := plain_runtime)
              d (PInt 7) "  key " "   " [("7", PDict [])]
              Scenario.accepting eq_refl
              (or_intror (ex_intro _ [] eq_refl)))
    as (d' & us' & u' & A & F & L & K & S & G).
  exists d', us', u'. repeat (split; [assumption|]).
  exact (G (or_intror eq_refl) 7 eq_refl).
Defined.

Lemma is_subscribed_creates_unknown_user_witness :
  let d := {| users_file := FJson (PDict [("8", PDict [])]);
              trades_file := FJson (PList []) |} in
  exists us',
    fst (is_subscribed (RT := plain_runtime) d (PInt 7) 0) = Some false
    /\ users_file (snd (is_subscribed (RT := plain_runtime) d (PInt 7) 0))
       = FJson (PDict us')
    /\ keys us' = ["8"; "7"].
Proof.
  intros d.
  destruct (is_subscribed_creates_unknown_user (RT := plain_runtime) d
              (PInt 7) 0 [("8", PDict [])] eq_refl eq_refl)
    as (us' & A & F & _).
  exists us'. split; [exact A|]. split; [exact F|].
  simpl in F. injection F as <-. reflexivity.
Defined.

Lemma expired_in_run_once_is_not_subscribed_witness :
  let u := [("api_key", PStr "key"); ("sub_until", PStr "5")] in
  let d := {| users_file := FJson (PDict [("7", PDict u)]);
              trades_file := FJson (PList []) |} in
  let e := {| Core.client_module := None;
              Core.http := fun _ _ => Core.HttpRaise "down";
              Core.utcnow := fun _ => 10 |} in
  Core.subscription_expired (RT := counting_runtime) e "7"
    (get_none "sub_until" u) = true
  /\ fst (is_subscribed (RT := counting_runtime) d (PInt 7) 10)
     = Some false.
Proof.
  intros u d e. split; [reflexivity|].
  exact (expired_in_run_once_is_not_subscribed (RT := counting_runtime)
           d (PInt 7) [("7", PDict u)] u e eq_refl eq_refl eq_refl).
Defined.

Lemma set_subscription_round_trip_witness :
  let d := {| users_file := FJson (PDict [("7", PDict [])]);
              trades_file := FJson (PList []) |} in
  exists d',
    set_subscription (RT := counting_runtime) count_isoformat d (PInt 7)
      30 1000 = Some d'
    /\ fst (is_subscribed (RT := counting_runtime) d' (PInt 7) 2000)
       = Some true.
Proof.
  intros d.
  assert (Hne : count_isoformat (1000 + 30 * 86400000000) <> "")
    by discriminate.
  destruct (set_subscription_round_trip (RT := counting_runtime)
              count_isoformat d (PInt 7) 30 1000 2000 [("7", PDict [])]
              eq_refl (or_intror (ex_intro _ [] eq_refl)) eq_refl Hne)
    as (d' & A & R & _).
  exists d'. split; [exact A|exact R].
Defined.

End ProfileExtra.

Module AuthExtra.
Import Py PyFacts Core AuthFacts.

Section WithRuntime.
Context {RT : Runtime}.

(** The iteration of a disabled user changes nothing in the mapping
    and does not get to the balance. *)
Lemma disabled_run_user (e : environment) (k : string) (st : state) :
  disabled k (users st) ->
  users (result_state (run_user e k st)) = users st
  /\ classified e k st = None.
Proof.
  intros (u & s & E & Hs & Hd).
  assert (G : gate e k (users st) = GateBadKey
              \/ exists uid, gate e k (users st)
                             = GateSkip (Some (LogSkipDisabled uid))).
  { unfold gate. destruct (int_of_str k) as [uid|]; [|now left].
    right. exists uid. rewrite E. unfold get_none, get. rewrite Hs.
    assert (T : truthy (PDict s) = true).
    { destruct s; [discriminate|reflexivity]. }
    unfold py_or. rewrite T, Hd. reflexivity. }
  unfold run_user, classified.
  destruct G as [->|[uid ->]]; split; reflexivity.
Qed.

Lemma disabled_run_users (e : environment) (k : string)
  (ks : list string) :
  forall st, disabled k (users st) ->
  disabled k (users (result_state (run_users e ks st))).
Proof.
  induction ks as [|k' rest IH]; intros st D; simpl; [exact D|].
  assert (D' : disabled k (users (result_state (run_user e k' st)))).
  { destruct (String.eqb_spec k k') as [<-|Hne].
    - now rewrite (proj1 (disabled_run_user e k st D)).
    - eapply keeps_auth_disabled; [|exact D].
      apply (run_user_frames e k' st). congruence. }
  destruct (run_user e k' st) as [st'|st']; simpl in D'; auto.
Qed.

Lemma disabled_state_at (e : environment) (k : string) (ks : list string) :
  forall st stk, state_at e ks k st = Some stk ->
  disabled k (users st) -> disabled k (users stk).
Proof.
  induction ks as [|k' rest IH]; intros st stk; simpl; [discriminate|].
  destruct (String.eqb_spec k k') as [<-|Hne].
  - intros H. now injection H as <-.
  - destruct (run_user e k' st) as [st'|] eqn:R; [|discriminate].
    intros H D. apply (IH _ _ H).
    eapply keeps_auth_disabled; [|exact D].
    pose proof (run_user_frames e k' st) as (_ & _ & F).
    rewrite R in F. apply F. congruence.
Qed.

(** X12: a disabled user stays disabled: when [users.json] holds
    [settings.DISABLED_AUTH = true] for a user, a cycle, whatever the
    exchange answers to the others and whether it ends or raises,
    never gets to that user's balance and leaves the flag set in the
    file. *)
Theorem disabled_user_stays_disabled (e : environment) (d : Store.disk)
  (us : dict) (k : string) :
  Store.users_file d = Store.FJson (PDict us) ->
  disabled k us ->
  cycle_classifies e d k = None
  /\ exists us',
       Store.users_file (after_cycle e d) = Store.FJson (PDict us')
       /\ disabled k us'.
Proof.
  intros Hd D. split.
  - unfold cycle_classifies. rewrite Hd.
    destruct (state_at e (keys us) k _) as [stk|] eqn:A; [|reflexivity].
    apply (disabled_run_user e k stk).
    now apply (disabled_state_at _ _ _ _ _ A).
  - unfold after_cycle, run_once. rewrite Hd.
    set (st0 := initial_state us (ensure_trades d)).
    destruct (run_users_frames e (keys us) st0) as (S & _ & _).
    eexists. split; [apply S, synced_initial, Hd|].
    now apply disabled_run_users.
Qed.

(** X13: a cycle never adds, removes or reorders users: after
    [run_once] on a file holding an object, ended or raised,
    [users.json] holds an object with the same keys in the same
    order. *)
Theorem cycle_keeps_the_users (e : environment) (d : Store.disk)
  (us : dict) :
  Store.users_file d = Store.FJson (PDict us) ->
  exists us',
    Store.users_file (after_cycle e d) = Store.FJson (PDict us')
    /\ keys us' = keys us.
Proof.
  intros Hd. unfold after_cycle, run_once. rewrite Hd.
  set (st0 := initial_state us (ensure_trades d)).
  destruct (run_users_frames e (keys us) st0) as (S & K & _).
  eexists. split; [apply S, synced_initial, Hd|exact K].
Qed.

(** X14: the iteration for one user does not reach into the profile of
    another: whatever the iteration for [k'] does, a profile stored
    under another key keeps every field outside [settings] (among them
    [_auth_failures] and the credentials) and every setting other than
    [TESTNET] (among them [DISABLED_AUTH]). *)
Theorem iteration_keeps_other_profiles (e : environment) (k k' : string)
  (st : state) (u : dict) :
  k <> k' ->
  lookup k (users st) = Some (PDict u) ->
  exists u',
    lookup k (users (result_state (run_user e k' st))) = Some (PDict u')
    /\ (forall f, f <> "settings" -> lookup f u' = lookup f u)
    /\ (forall s, lookup "settings" u = Some (PDict s) ->
        exists s', lookup "settings" u' = Some (PDict s')
          /\ forall f, f <> "TESTNET" -> lookup f s' = lookup f s).
Proof.
  intros Hne E.
  pose proof (run_user_frames e k' st) as (_ & _ & F).
  specialize (F k). rewrite E in F. apply F. congruence.
Qed.

(** X15: the users [run_once] skips: a user with [DISABLED_AUTH] set,
    or whose [sub_until] reads as a date before now, or whose key or
    secret is empty, is passed over without any call of
    [get_balance_usdt] and without any change to the mapping or to the
    files. *)
Theorem skipped_user_costs_nothing (e : environment) (k : string)
  (st : state) (u s : dict) (uid : Z) :
  int_of_str k = Some uid ->
  lookup k (users st) = Some (PDict u) ->
  py_or (get_none "settings" u) (PDict []) = PDict s ->
  truthy (get "DISABLED_AUTH" (PBool false) s) = true
  \/ subscription_expired e k (get_none "sub_until" u) = true
  \/ truthy (get "api_key" (PStr "") u) = false
  \/ truthy (get "api_secret" (PStr "") u) = false ->
  exists st',
    run_user e k st = Done st'
    /\ users st' = users st /\ disk st' = disk st
    /\ calls st' = calls st.
Proof.
  intros Hk E Hs H.
  destruct (gate_skips e k (users st) u s uid Hk E Hs H) as (msg & G).
  exact (skipped_user_untouched e k st msg G).
Qed.

(** X16: the built-in [get_balance_usdt] answers with a float, or with
    a dict that carries [retCode] or [retMsg]: whatever the network
    does and whatever the secret is, callers get one of these two
    shapes and no exception. *)
Theorem get_balance_usdt_shape (api_secret : pyval) (h : http_outcome) :
  match builtin_get_balance_usdt api_secret h with
  | PFloat _ => True
  | PDict d => mem "retCode" d || mem "retMsg" d = true
  | _ => False
  end.
Proof.
  assert (F : forall v, match float_or_envelope v with
                        | PFloat _ => True
                        | PDict d => mem "retCode" d || mem "retMsg" d = true
                        | _ => False
                        end).
  { intros v. unfold float_or_envelope.
    destruct (py_float _); [exact I|reflexivity]. }
  unfold builtin_get_balance_usdt.
  destruct api_secret; try reflexivity.
  unfold balance_of_response.
  destruct (_private_request h) as [| | | | | |d]; try reflexivity.
  destruct (mem "retCode" d || mem "retMsg" d) eqn:M; [exact M|].
  destruct (py_or _ _) as [| | | | | |res]; try exact I.
  assert (B : match (match lookup "USDT" res with
                     | Some v => float_or_envelope v
                     | None => PFloat 0%float
                     end) with
              | PFloat _ => True
              | PDict d => mem "retCode" d || mem "retMsg" d = true
              | _ => False
              end).
  { destruct (lookup "USDT" res); [apply F|exact I]. }
  destruct (lookup "list" res) as [[| | | | |items|]|]; try exact B.
  destruct (find_usdt items); [reflexivity|exact B|apply F].
Qed.

(** X17: a response that carries [retCode] or [retMsg] is handed back
    as it is and never read as a balance; so with the built-in client
    the probe of the other environment changes nothing when the
    exchange answers it with such a response, its [retCode] being 0 or
    not. *)
Theorem enveloped_response_never_fixes_testnet (e : environment)
  (api_key api_secret : pyval) (testnet : bool) (uid : Z) (st : state)
  (status : Z) (text : string) (d : dict) :
  client_module e = None ->
  http e (calls st) (make_client e api_key api_secret (negb testnet))
  = HttpResponse status text (Some (PDict d)) ->
  mem "retCode" d || mem "retMsg" d = true ->
  let r := try_alternate_env_and_fix_user e api_key api_secret testnet
             uid st in
  fst r = false /\ users (snd r) = users st /\ disk (snd r) = disk st.
Proof.
  intros Hc Hh Hm.
  apply try_alternate_fails.
  unfold get_balance_usdt, make_client. rewrite Hc. cbn [c_local c_secret].
  unfold make_client in Hh. rewrite Hc in Hh. rewrite Hh.
  unfold builtin_get_balance_usdt.
  destruct api_secret; try reflexivity.
  unfold _private_request, balance_of_response. now rewrite Hm.
Qed.

(** A failure that is not yet the third, on the profile itself: the
    flag in [settings] is what it was. *)
Lemma early_failure_step (e : environment) (k : string) (n : Z)
  (st : state) (v : option pyval) :
  (exists u s, lookup k (users st) = Some (PDict u)
     /\ get "_auth_failures" (PInt 0) u = PInt n
     /\ lookup "settings" u = Some (PDict s)
     /\ lookup "DISABLED_AUTH" s = v) ->
  n + 1 < 3 ->
  classified e k st = Some true ->
  exists st',
    run_user e k st = Done st'
    /\ synced st'
    /\ exists u' s', lookup k (users st') = Some (PDict u')
         /\ lookup "_auth_failures" u' = Some (PInt (n + 1))
         /\ lookup "settings" u' = Some (PDict s')
         /\ lookup "DISABLED_AUTH" s' = v.
Proof.
  intros (u & s & E & Hn & Hs & Hv) Hlt H.
  destruct (classified_run_user _ _ _ _ H)
    as (uid & key & secret & testnet & G & R).
  rewrite R. clear R. cbv zeta.
  set (c := make_client e key secret testnet).
  set (st0 := add_call c (log_client e c st)).
  assert (U0 : users st0 = users st) by apply users_after_client.
  unfold on_auth_failure. rewrite U0, E, Hn. cbn [py_add1 at_least_three].
  destruct (Z.leb_spec 3 (n + 1)) as [|_]; [lia|].
  set (st1 := add_log _ (save_users _)).
  assert (L1 : lookup k (users st1)
               = Some (PDict (set "_auth_failures" (PInt (n + 1)) u))).
  { unfold st1. simpl. now rewrite lookup_set_field, String.eqb_refl, E. }
  set (st2 := if is_one (PInt (n + 1)) then _ else st1).
  assert (F2 : frames None st1 st2).
  { unfold st2. destruct (is_one _).
    - apply try_alternate_frames.
    - apply frames_refl. }
  destruct F2 as (S2 & _ & K2).
  exists st2. split; [reflexivity|]. split; [now apply S2|].
  specialize (K2 k). rewrite L1 in K2. simpl in K2.
  destruct K2 as (u2 & E2 & Hf & Hset); [discriminate|].
  destruct (Hset s) as (s2 & Hs2 & Hk2).
  { rewrite lookup_set_other; [exact Hs|discriminate]. }
  exists u2, s2. split; [exact E2|]. split; [|split; [exact Hs2|]].
  - rewrite Hf; [apply lookup_set_same|discriminate].
  - rewrite Hk2; [exact Hv|discriminate].
Qed.

(** X18: no user is disabled before the third failure: a cycle that
    classifies the response as an authentication failure while fewer
    than two failures are counted writes the counter, one higher, into
    [users.json] and leaves [settings.DISABLED_AUTH] there as it was,
    whatever the probe of the other environment did. *)
Theorem early_failure_does_not_disable (e : environment) (d : Store.disk)
  (us u s : dict) (k : string) (n : Z) :
  Store.users_file d = Store.FJson (PDict us) ->
  NoDup (keys us) ->
  lookup k us = Some (PDict u) ->
  get "_auth_failures" (PInt 0) u = PInt n ->
  lookup "settings" u = Some (PDict s) ->
  n + 1 < 3 ->
  cycle_classifies e d k = Some true ->
  stored_field (after_cycle e d) k "_auth_failures" = Some (PInt (n + 1))
  /\ stored_disabled (after_cycle e d) k = lookup "DISABLED_AUTH" s.
Proof.
  intros Hd Hnd E Hn Hs Hlt Hcl.
  unfold cycle_classifies in Hcl. rewrite Hd in Hcl.
  destruct (state_at e (keys us) k _) as [stk|] eqn:Hat; [|discriminate].
  destruct (cycle_reaches _ _ _ _ _ Hd Hnd Hat)
    as (S & K & F & post & Hpost & Hrun).
  rewrite E in F. simpl in F. destruct F as (uk & Ek & Hfk & Hsk).
  destruct (Hsk s Hs) as (sk & Hsk' & Hkk).
  destruct (early_failure_step e k n stk (lookup "DISABLED_AUTH" s))
    as (st' & R & S' & u' & s' & E' & Hc' & Hs' & Hd'); auto.
  { exists uk, sk. split; [exact Ek|]. split; [|split; [exact Hsk'|]].
    - unfold get in *. rewrite Hfk; [exact Hn|discriminate].
    - apply Hkk. discriminate. }
  rewrite R in Hrun.
  destruct (cycle_finishes e k post st' Hpost S') as (Sf & _ & Ff).
  rewrite E' in Ff. simpl in Ff. destruct Ff as (uf & Ef & Hff & Hsf).
  destruct (Hsf s' Hs') as (sf & Hsf' & Hkf).
  unfold stored_field, stored_disabled, stored_profile, after_cycle.
  rewrite Hrun, Sf, Ef, Hsf'. split.
  - rewrite Hff; [exact Hc'|discriminate].
  - rewrite Hkf; [exact Hd'|discriminate].
Qed.

End WithRuntime.

End AuthExtra.

Module AuthExtraCases.
Import Py PyFacts Core Scenario AuthFacts AuthExtra.

#[local] Existing Instance plain_runtime.

Lemma disabled_user_stays_disabled_witness :
  let off := PDict [("api_key", PStr "key"); ("api_secret", PStr "secret");
                    ("settings", PDict [("DISABLED_AUTH", PBool true)])] in
  let us := [("3", profile (PInt 0) PNone true); ("7", off)] in
  cycle_classifies rejecting (files us) "7" = None
  /\ exists us',
       Store.users_file (after_cycle rejecting (files us))
       = Store.FJson (PDict us')
       /\ disabled "7" us'.
Proof.
  intros off us.
  apply (disabled_user_stays_disabled rejecting (files us) us "7" eq_refl).
  eexists. eexists. repeat split.
Defined.

Lemma cycle_keeps_the_users_witness :
  let us := [("1", PNone); ("7", profile (PInt 0) PNone true)] in
  exists us',
    Store.users_file (after_cycle rejecting (files us))
    = Store.FJson (PDict us')
    /\ keys us' = ["1"; "7"].
Proof.
  intros us.
  exact (cycle_keeps_the_users rejecting (files us) us eq_refl).
Defined.

Lemma iteration_keeps_other_profiles_witness :
  let us := [("3", profile (PInt 2) PNone true);
             ("7", profile (PInt 1) PNone true)] in
  exists u',
    lookup "7" (users (result_state
                         (run_user rejecting "3"
                            (initial_state us (files us)))))
    = Some (PDict u')
    /\ lookup "_auth_failures" u' = Some (PInt 1).
Proof.
  intros us.
  destruct (iteration_keeps_other_profiles rejecting "7" "3"
              (initial_state us (files us)) _
              ltac:(discriminate) eq_refl)
    as (u' & E & F & _).
  exists u'. split; [exact E|].
  rewrite F; [reflexivity|discriminate].
Defined.

Lemma skipped_user_costs_nothing_witness :
  let u := [("api_key", PStr "key"); ("api_secret", PStr "")] in
  let st := initial_state [("7", PDict u)] (files [("7", PDict u)]) in
  exists st',
    run_user rejecting "7" st = Done st'
    /\ users st' = users st /\ disk st' = disk st
    /\ calls st' = [].
Proof.
  intros u st.
  exact (skipped_user_costs_nothing rejecting "7" st u [] 7
           eq_refl eq_refl eq_refl
           (or_intror (or_intror (or_intror eq_refl)))).
Defined.

Lemma enveloped_response_never_fixes_testnet_witness :
  let us := [("7", profile (PInt 1) PNone true)] in
  let st := initial_state us (files us) in
  let r := try_alternate_env_and_fix_user accepting (PStr "key")
             (PStr "secret") true 7 st in
  fst r = false /\ users (snd r) = us /\ disk (snd r) = files us.
Proof.
  intros us st.
  exact (enveloped_response_never_fixes_testnet accepting (PStr "key")
           (PStr "secret") true 7 st 200 "{}" _ eq_refl eq_refl eq_refl).
Defined.

Lemma early_failure_does_not_disable_witness :
  let us := [("7", profile (PInt 1) PNone true)] in
  stored_field (after_cycle production_only (files us)) "7"
    "_auth_failures" = Some (PInt 2)
  /\ stored_disabled (after_cycle production_only (files us)) "7"
     = Some (PBool false).
Proof.
  intros us.
  assert (Hnd : NoDup (keys us)).
  { constructor; [simpl; tauto|constructor]. }
  exact (early_failure_does_not_disable production_only (files us) us
           _ _ "7" 1 eq_refl Hnd eq_refl eq_refl eq_refl eq_refl eq_refl).
Defined.

End AuthExtraCases.

Module NormalizerExtra.
Import Py PyFacts Core NormalizerFacts.

Lemma sorted_permutation_unique (l1 : list Z) :
  forall l2, StronglySorted Z.le l1 -> StronglySorted Z.le l2 ->
  Permutation l1 l2 -> l1 = l2.
Proof.
  induction l1 as [|a t1 IH]; intros l2 S1 S2 P.
  - apply Permutation_nil in P. now subst.
  - destruct l2 as [|b t2].
    { apply Permutation_sym, Permutation_nil in P. discriminate. }
    inversion S1 as [|? ? S1' A1]; subst.
    inversion S2 as [|? ? S2' A2]; subst.
    assert (Hab : a = b).
    { assert (Ia : In a (b :: t2))
        by (eapply Permutation_in; [exact P|now left]).
      assert (Ib : In b (a :: t1))
        by (eapply Permutation_in; [apply Permutation_sym, P|now left]).
      rewrite Forall_forall in A1, A2.
      destruct Ia as [->|Ia]; [reflexivity|].
      destruct Ib as [->|Ib]; [reflexivity|].
      specialize (A1 _ Ib). specialize (A2 _ Ia). lia. }
    subst b. f_equal. apply IH; auto.
    now apply Permutation_cons_inv in P.
Qed.

Lemma extract_rows_perm (l1 l2 : list pyval) :
  Permutation l1 l2 -> Permutation (extract_rows l1) (extract_rows l2).
Proof.
  induction 1 as [|x l l' P IH|x y l|l l' l'' P1 IH1 P2 IH2]; simpl.
  - constructor.
  - destruct (extract_row x); [now constructor|exact IH].
  - destruct (extract_row x), (extract_row y);
      try apply Permutation_refl. apply perm_swap.
  - eapply perm_trans; eauto.
Qed.

Lemma forallb_perm {A : Type} (f : A -> bool) (l1 l2 : list A) :
  Permutation l1 l2 -> forallb f l1 = forallb f l2.
Proof.
  induction 1 as [|x l l' P IH|x y l|l l' l'' P1 IH1 P2 IH2]; simpl.
  - reflexivity.
  - now rewrite IH.
  - destruct (f x), (f y); reflexivity.
  - congruence.
Qed.

Lemma existsb_perm {A : Type} (f : A -> bool) (l1 l2 : list A) :
  Permutation l1 l2 -> existsb f l1 = existsb f l2.
Proof.
  induction 1 as [|x l l' P IH|x y l|l l' l'' P1 IH1 P2 IH2]; simpl.
  - reflexivity.
  - now rewrite IH.
  - destruct (f x), (f y); reflexivity.
  - congruence.
Qed.

(** The column inference of the runtime of the examples looks at which
    kinds of cells the column holds, not at where they are. *)
Lemma plain_column_cell_perm (c1 c2 : list pyval) (x : pyval) :
  Permutation c1 c2 ->
  column_cell (Runtime := plain_runtime) c1 x
  = column_cell (Runtime := plain_runtime) c2 x.
Proof.
  intros P. simpl. unfold plain_column_cell, float_column.
  now rewrite (forallb_perm _ _ _ P), !(existsb_perm _ _ _ P).
Qed.

Section WithRuntime.
Context {RT : Runtime}.

Lemma dropna_col_perm (col : list pyval) (r1 r2 : list raw_row) :
  Permutation r1 r2 ->
  Permutation (dropna_col col r1) (dropna_col col r2).
Proof.
  induction 1 as [|x l l' P IH|x y l|l l' l'' P1 IH1 P2 IH2]; simpl.
  - constructor.
  - destruct (_to_dt (t_cell col x)); [now constructor|exact IH].
  - destruct (_to_dt (t_cell col x)), (_to_dt (t_cell col y));
      try apply Permutation_refl. apply perm_swap.
  - eapply perm_trans; eauto.
Qed.

Lemma dropna_col_ext (c1 c2 : list pyval) (rows : list raw_row) :
  (forall x, column_cell c1 x = column_cell c2 x) ->
  dropna_col c1 rows = dropna_col c2 rows.
Proof.
  intros H. induction rows as [|r rest IH]; simpl; [reflexivity|].
  unfold t_cell. now rewrite H, IH.
Qed.

Lemma collect_rows_list (l : list pyval) :
  collect_rows (PList l)
  = match extract_rows l with [] => None | rows => Some rows end.
Proof. unfold collect_rows. destruct l; reflexivity. Qed.

(** X19: the order of the rows of a response does not matter, when the
    type pandas infers for a column does not depend on the order of its
    cells: two arrays holding the same rows in different orders are
    then both refused, or both accepted with the same rows in the frame
    and the very same sequence of timestamps. *)
Theorem normalize_ohlcv_order_independent (l1 l2 : list pyval) :
  (forall c1 c2 x, Permutation c1 c2 ->
                   column_cell c1 x = column_cell c2 x) ->
  Permutation l1 l2 ->
  match normalize_ohlcv_to_df (RawVal (PList l1)),
        normalize_ohlcv_to_df (RawVal (PList l2)) with
  | Some df1, Some df2 =>
      map r_t df1 = map r_t df2 /\ Permutation df1 df2
  | None, None => True
  | _, _ => False
  end.
Proof.
  intros Hcol P. unfold normalize_ohlcv_to_df.
  rewrite !collect_rows_list.
  pose proof (extract_rows_perm _ _ P) as PR.
  destruct (extract_rows l1) as [|a r1] eqn:E1.
  - apply Permutation_nil in PR. now rewrite PR.
  - destruct (extract_rows l2) as [|b r2] eqn:E2.
    { apply Permutation_sym, Permutation_nil in PR. discriminate. }
    assert (PD : Permutation (sort_index (dropna_t (a :: r1)))
                             (sort_index (dropna_t (b :: r2)))).
    { eapply perm_trans; [apply Permutation_sym, sort_index_perm|].
      eapply perm_trans; [|apply sort_index_perm].
      unfold dropna_t.
      rewrite (dropna_col_ext (map rr_ts (a :: r1)) (map rr_ts (b :: r2)))
        by (intros x; apply Hcol, Permutation_map, PR).
      apply dropna_col_perm, PR. }
    split; [|exact PD].
    apply sorted_permutation_unique.
    + apply sort_index_timestamps.
    + apply sort_index_timestamps.
    + now apply Permutation_map.
Qed.

End WithRuntime.

(** Three rows, one of them without a timestamp, so that the column
    holds floats: whatever the order, the frame is the same. *)
Lemma normalize_ohlcv_order_independent_witness :
  let a := PList [PInt 100; PInt 3; PInt 4; PInt 2; PInt 3; PInt 9] in
  let b := PList [PNone; PInt 3; PInt 4; PInt 2; PInt 3; PInt 9] in
  let c := PList [PInt 50; PStr "1"; PStr "n/a"; PInt 1; PInt 2] in
  match normalize_ohlcv_to_df (RT := plain_runtime) (RawVal (PList [a; b; c])),
        normalize_ohlcv_to_df (RT := plain_runtime) (RawVal (PList [c; a; b]))
  with
  | Some df1, Some df2 =>
      map r_t df1 = map r_t df2 /\ Permutation df1 df2
  | None, None => True
  | _, _ => False
  end.
Proof.
  intros a b c.
  apply (normalize_ohlcv_order_independent (RT := plain_runtime)).
  - intros c1 c2 x. apply plain_column_cell_perm.
  - apply Permutation_sym.
    change [c; a; b] with ([c] ++ [a; b])%list.
    change [a; b; c] with ([a; b] ++ [c])%list.
    apply Permutation_app_comm.
Defined.

End NormalizerExtra.

Module IndicatorExtra.
Import Py Core CoreMore IndicatorFacts.

Lemma length_diff_from (prev : float) (l : series) :
  List.length (diff_from prev l) = List.length l.
Proof.
  revert prev. induction l as [|y rest IH]; intros prev; simpl;
    [reflexivity|]. now rewrite IH.
Qed.

Lemma length_ewm_loop (factor new_wt : float) (vals : series) :
  forall st, List.length (ewm_loop factor new_wt st vals)
             = List.length vals.
Proof.
  induction vals as [|x rest IH]; intros st; simpl; [reflexivity|].
  now rewrite IH.
Qed.

Lemma length_zip_with (f : float -> float -> float) (a : series) :
  forall b, List.length a = List.length b ->
  List.length (zip_with f a b) = List.length a.
Proof.
  induction a as [|x a IH]; intros [|y b] H; simpl in *;
    try reflexivity; try discriminate.
  now rewrite IH by congruence.
Qed.

(** X20: the RSI is aligned with the prices and undefined at the first
    of them: for every series of prices and every positive period the
    computation of [rsi_series] without [ta] returns as many values as
    there are prices, and the first value is [nan]. *)
Theorem rsi_series_aligned_first_undefined (c0 : float) (rest : series)
  (period : Z) :
  0 < period ->
  rsi_series None [] period = Some []
  /\ exists tail,
       rsi_series None (c0 :: rest) period = Some (nan :: tail)
       /\ List.length tail = List.length rest.
Proof.
  intros Hp. unfold rsi_series, rsi_fallback.
  destruct (Z.leb_spec period 0) as [|_]; [lia|].
  split; [reflexivity|].
  cbn [diff map]. unfold ewm_mean, prep_values. cbn [map].
  change (clip_lower0 nan) with nan.
  change (- clip_upper0 nan)%float with nan.
  change (prep_value nan) with nan.
  cbn [zip_with map].
  eexists. split; [reflexivity|].
  rewrite length_map, length_zip_with;
    rewrite !length_ewm_loop, !length_map, length_diff_from; reflexivity.
Qed.

(** X21: the EMA is aligned with the prices and starts at the first of
    them: for every span of 1 or more [ema_series] returns as many
    values as there are prices, the first being the first price, or
    [nan] when the first price is infinite (pandas takes an infinite
    value for a missing one); a span below 1 is refused. *)
Theorem ema_series_aligned_and_seeded (c0 : float) (rest : series)
  (period : Z) :
  (period < 1 -> ema_series (c0 :: rest) period = None)
  /\ (1 <= period ->
      exists tail,
        ema_series (c0 :: rest) period
        = Some ((if PrimFloat.is_infinity c0 then nan else c0) :: tail)
        /\ List.length tail = List.length rest).
Proof.
  unfold ema_series. split; intros Hp.
  - destruct (Z.ltb_spec period 1); [reflexivity|lia].
  - destruct (Z.ltb_spec period 1); [lia|].
    unfold ewm_mean_span, prep_values. cbn [map].
    eexists. split; [reflexivity|].
    now rewrite length_ewm_loop, length_map.
Qed.

Lemma ewm_mean_span_repeat (span c : float) (n : nat) :
  PrimFloat.eqb c c = true ->
  PrimFloat.is_infinity c = false ->
  ewm_mean_span span (repeat c n) = repeat c n.
Proof.
  intros Hc Hi. unfold ewm_mean_span.
  rewrite (prep_values_repeat c n Hi).
  destruct n as [|n]; [reflexivity|].
  cbn [repeat]. now rewrite ewm_loop_constant.
Qed.

(** X22: the EMA of a flat series is that series, exactly: for every
    price [c] that is a finite number (neither [nan] nor infinite) and
    every span of 1 or more, no rounding moves the average away from
    [c]. *)
Theorem ema_series_constant (c : float) (n : nat) (period : Z) :
  PrimFloat.eqb c c = true ->
  PrimFloat.is_infinity c = false ->
  1 <= period ->
  ema_series (repeat c n) period = Some (repeat c n).
Proof.
  intros Hc Hi Hp. unfold ema_series.
  destruct (Z.ltb_spec period 1); [lia|].
  now rewrite ewm_mean_span_repeat.
Qed.

(** X23: on a flat series the MACD line, the signal line and the
    histogram are zero at every index, for all spans of 1 or more. *)
Theorem macd_hist_series_flat (c : float) (n : nat) (fast slow signal : Z) :
  PrimFloat.eqb c c = true ->
  (c - c)%float = 0%float ->
  1 <= fast -> 1 <= slow -> 1 <= signal ->
  macd_hist_series (repeat c n) fast slow signal
  = Some (repeat 0%float n, repeat 0%float n, repeat 0%float n).
Proof.
  intros Hc Hz Hf Hs Hg. unfold macd_hist_series, ema_series.
  destruct (Z.ltb_spec fast 1); [lia|].
  destruct (Z.ltb_spec slow 1); [lia|].
  destruct (Z.ltb_spec signal 1); [lia|].
  destruct (sub_self_zero_finite c Hz) as (_ & Hi).
  rewrite !ewm_mean_span_repeat by assumption.
  rewrite zip_with_repeat, Hz.
  rewrite ewm_mean_span_repeat by reflexivity.
  now rewrite zip_with_repeat.
Qed.

Lemma rsi_series_aligned_first_undefined_witness :
  0 < 14
  /\ exists tail,
       rsi_series None [100; 101; 99; 102]%float 14 = Some (nan :: tail)
       /\ List.length tail = 3%nat.
Proof.
  split; [lia|].
  exact (proj2 (rsi_series_aligned_first_undefined 100%float
                  [101; 99; 102]%float 14 ltac:(lia))).
Defined.

Lemma ema_series_aligned_and_seeded_witness :
  ema_series [100; 101; 99]%float 0 = None
  /\ exists tail,
       ema_series [100; 101; 99]%float 50 = Some (100%float :: tail)
       /\ List.length tail = 2%nat.
Proof.
  destruct (ema_series_aligned_and_seeded 100%float [101; 99]%float 0)
    as (H0 & _).
  destruct (ema_series_aligned_and_seeded 100%float [101; 99]%float 50)
    as (_ & H50).
  split; [apply H0; lia|apply H50; lia].
Defined.

Lemma ema_series_constant_witness :
  ema_series (repeat 100%float 5) 50 = Some (repeat 100%float 5).
Proof.
  apply (ema_series_constant 100%float 5 50);
    [reflexivity|reflexivity|lia].
Defined.

Lemma macd_hist_series_flat_witness :
  macd_hist_series (repeat 100%float 30) 8 21 5
  = Some (repeat 0%float 30, repeat 0%float 30, repeat 0%float 30).
Proof.
  apply (macd_hist_series_flat 100%float 30 8 21 5);
    try reflexivity; lia.
Defined.

End IndicatorExtra.

Module MaskExtra.
Import Py Core CoreMore.

(** X24: the mask of a short key hides nothing: every key of one to six
    characters can be read off its mask, the first three characters at
    its start and the others at its end (a key of up to three characters
    is shown twice, whole). *)
Theorem mask_key_discloses_short_keys (k : string) :
  k <> "" ->
  (String.length k <= 6)%nat ->
  let n := String.length k in
  let m := mask_key k in
  k = substring 0 (Nat.min 3 n) m
      ++ substring (String.length m - (n - 3)) (n - 3) m
  /\ ((n <= 3)%nat -> m = k ++ "..." ++ k).
Proof.
  intros Hk Hn.
  destruct k as [|a [|b [|c [|d [|e [|f [|g k]]]]]]]; cbn in Hn;
    try congruence; try lia;
    (split; [reflexivity|intros H3; cbn in H3; try lia; reflexivity]).
Qed.

Lemma mask_key_discloses_short_keys_witness :
  (String.length "abcde" <= 6)%nat
  /\ mask_key "abcde" = "abc...cde"
  /\ "abcde" = substring 0 3 (mask_key "abcde")
               ++ substring 7 2 (mask_key "abcde").
Proof.
  assert (Hk : "abcde" <> "") by discriminate.
  assert (Hn : (String.length "abcde" <= 6)%nat) by (cbn; lia).
  split; [assumption|].
  split; [reflexivity|].
  exact (proj1 (mask_key_discloses_short_keys "abcde" Hk Hn)).
Defined.

End MaskExtra.
